(** * The tool-orchestration core of the MCP demo application

    A shallow embedding of
      - the math tool server       (mcp-tools/math-server.js),
      - the MCP client             (lib/mcpClient.ts: connectToServers,
                                    processQuery, executeTool, cleanup),
      - the server action          (lib/actions.ts: runQuery),
    together with the properties of the orchestration loop.

    JavaScript numbers are IEEE binary64 values ([float]); values that
    travel over JSON-RPC are [json] trees; every call that leaves the
    process (spawning a server, a JSON-RPC request, closing a transport, a
    call of the reasoning model) is recorded in a log and answered by the
    host as a function of the log so far. *)

From Stdlib Require Import ZArith String Ascii List Bool Floats Lia DecimalString.
From Stdlib Require Uint63.
Import ListNotations.
Open Scope string_scope.
Set Warnings "-register-all".

(** ** JavaScript values *)

Inductive json : Type :=
| JNull
| JBool (b : bool)
| JNum (x : float)
| JStr (s : string)
| JArr (items : list json)
| JObj (fields : list (string * json)).

(** An object is its list of own properties, in enumeration order. *)
Definition object : Type := list (string * json).

(** [o.key]: [None] is JavaScript's [undefined]. *)
Fixpoint get (key : string) (o : object) : option json :=
  match o with
  | [] => None
  | (k, v) :: rest => if String.eqb k key then Some v else get key rest
  end.

(** [args?.key] for a possibly missing [args]; only objects carry the
    properties the tool server reads. *)
Definition opt_get (args : option json) (key : string) : option json :=
  match args with
  | Some (JObj o) => get key o
  | _ => None
  end.

(** [v ?? d]: the default replaces [undefined] and [null] only. *)
Definition nullish (v : option json) (d : json) : json :=
  match v with
  | None | Some JNull => d
  | Some w => w
  end.

Definition LF : string := String "010"%char EmptyString.
Definition DQUOTE : string := String "034"%char EmptyString.

(** ** Errors and tool results *)

Inductive ErrorCode : Type := InvalidParams | MethodNotFound | InternalError.

Inductive exn : Type :=
| McpError (code : ErrorCode) (message : string)
| Error (message : string).

Inductive result (A : Type) : Type :=
| Ok (a : A)
| Fail (e : exn).
Arguments Ok {A} a.
Arguments Fail {A} e.

(** The content of a tool result.  An array holds content items, which are
    objects (CallToolResultSchema); a string and the remaining shapes are
    what [executeTool] also provides for. *)
Inductive ToolContent : Type :=
| ContentItems (items : list object)
| ContentString (s : string)
| ContentNull
| ContentBool (b : bool)
| ContentNumber (x : float)
| ContentObject (o : object).

(** [result.content]; [None] when the property is missing. *)
Record CallToolResult : Type := { content : option ToolContent }.

(** The parts of the platform that are left abstract: the digits that
    [Number.prototype.toString] prints for a double that is not a safe
    integer, and the cases of the tool server's switch that are not spelled
    out below (power, is_prime, reverse_string, word_count, current_time),
    given as the value the handler's [try] block produces for them. *)
Class Platform : Type := {
  Number_toString_other : float -> string;
  other_tool_cases : string -> option json -> result CallToolResult
}.

(** ** Numbers *)

Definition Number_isNaN (x : float) : bool := PrimFloat.is_nan x.

(** The integer a double denotes, when it denotes one. *)
Definition integer_value (x : float) : option Z :=
  match Prim2SF x with
  | S754_zero _ => Some 0%Z
  | S754_finite s m e =>
      let sign (v : Z) := if s then (- v)%Z else v in
      if (0 <=? e)%Z then Some (sign (Zpos m * 2 ^ e)%Z)
      else if (Zpos m mod 2 ^ (- e) =? 0)%Z then Some (sign (Zpos m / 2 ^ (- e))%Z)
      else None
  | _ => None
  end.

Definition Number_isInteger (x : float) : bool :=
  match integer_value x with Some _ => true | None => false end.

Definition Number_isFinite (x : float) : bool :=
  match Prim2SF x with
  | S754_zero _ | S754_finite _ _ _ => true
  | _ => false
  end.

Definition MAX_SAFE_INTEGER : Z := 9007199254740991.

(** [String(x)] for a number: a safe integer prints as its decimal digits. *)
Definition Number_toString {P : Platform} (x : float) : string :=
  match integer_value x with
  | Some z =>
      if (Z.abs z <=? MAX_SAFE_INTEGER)%Z then NilZero.string_of_int (Z.to_int z)
      else Number_toString_other x
  | None => Number_toString_other x
  end.

(** ** Truthiness, string conversion, JSON.stringify *)

Definition truthy (v : json) : bool :=
  match v with
  | JNull => false
  | JBool b => b
  | JNum x => negb (PrimFloat.eqb x 0%float || PrimFloat.is_nan x)
  | JStr s => negb (String.eqb s EmptyString)
  | JArr _ | JObj _ => true
  end.

(** [String(v)], as [Array.prototype.join] applies it to its elements. *)
Fixpoint ToString {P : Platform} (v : json) : string :=
  match v with
  | JNull => "null"
  | JBool b => if b then "true" else "false"
  | JNum x => Number_toString x
  | JStr s => s
  | JArr items =>
      String.concat ","
        (map (fun e => match e with JNull => EmptyString | _ => ToString e end) items)
  | JObj _ => "[object Object]"
  end.

Definition hex_digit (n : nat) : string :=
  String.substring n 1 "0123456789abcdef".

(** One character of QuoteJSONString. *)
Definition json_escape (c : ascii) : string :=
  let n := nat_of_ascii c in
  if Nat.eqb n 8 then "\b"
  else if Nat.eqb n 9 then "\t"
  else if Nat.eqb n 10 then "\n"
  else if Nat.eqb n 12 then "\f"
  else if Nat.eqb n 13 then "\r"
  else if Nat.eqb n 34 then "\" ++ DQUOTE
  else if Nat.eqb n 92 then "\\"
  else if Nat.ltb n 32 then "\u00" ++ hex_digit (n / 16) ++ hex_digit (n mod 16)
  else String c EmptyString.

Fixpoint json_escape_all (s : string) : string :=
  match s with
  | EmptyString => EmptyString
  | String c rest => json_escape c ++ json_escape_all rest
  end.

Definition QuoteJSONString (s : string) : string :=
  DQUOTE ++ json_escape_all s ++ DQUOTE.

Definition is_empty (s : string) : bool :=
  match s with EmptyString => true | _ => false end.

(** Brackets around the already serialized members, on one line when there
    is no gap and one member per line otherwise. *)
Definition wrap (open_ close_ gap stepback : string) (partial : list string) : string :=
  match partial with
  | [] => open_ ++ close_
  | _ =>
      if is_empty gap then open_ ++ String.concat "," partial ++ close_
      else
        let indent := stepback ++ gap in
        open_ ++ LF ++ indent ++ String.concat ("," ++ LF ++ indent) partial
              ++ LF ++ stepback ++ close_
  end.

(** SerializeJSONProperty with the given gap at the given indentation. *)
Fixpoint SerializeJSON {P : Platform} (gap indent : string) (v : json) : string :=
  match v with
  | JNull => "null"
  | JBool b => if b then "true" else "false"
  | JNum x => if Number_isFinite x then Number_toString x else "null"
  | JStr s => QuoteJSONString s
  | JArr items =>
      wrap "[" "]" gap indent (map (SerializeJSON gap (indent ++ gap)) items)
  | JObj fields =>
      wrap "{" "}" gap indent
        (map (fun kv =>
                QuoteJSONString (fst kv) ++ ":" ++ (if is_empty gap then EmptyString else " ")
                  ++ SerializeJSON gap (indent ++ gap) (snd kv))
             fields)
  end.

(** [JSON.stringify(v)] and [JSON.stringify(v, null, 2)]. *)
Definition JSON_stringify {P : Platform} (v : json) : string :=
  SerializeJSON EmptyString EmptyString v.

Definition JSON_stringify_2 {P : Platform} (v : json) : string :=
  SerializeJSON "  " EmptyString v.

(** ** The math tool server (mcp-tools/math-server.js) *)

Definition bindR {A B : Type} (r : result A) (k : A -> result B) : result B :=
  match r with
  | Ok a => k a
  | Fail e => Fail e
  end.

Notation "'let?' x ':=' r 'in' k" := (bindR r (fun x => k))
  (at level 10, x name, r at level 100, k at level 200).

(** [handleError] always throws; this is the value it throws. *)
Definition handleError (error : exn) : exn :=
  match error with
  | McpError _ _ => error
  | Error message => McpError InternalError message
  end.

Definition validateNumber (value : option json) (name : string) : result float :=
  match value with
  | Some (JNum x) =>
      if Number_isNaN x then Fail (McpError InvalidParams (name ++ " must be a valid number"))
      else Ok x
  | _ => Fail (McpError InvalidParams (name ++ " must be a valid number"))
  end.

(** A tool as a server advertises it (tools/list). *)
Module MCP.
Record Tool : Type := {
  name : string;
  description : option string;
  inputSchema : json
}.
End MCP.

Definition prop (type description : string) : json :=
  JObj [("type", JStr type); ("description", JStr description)].

Definition prop_default (type description : string) (default : json) : json :=
  JObj [("type", JStr type); ("description", JStr description); ("default", default)].

Definition schema (properties : object) (required : list string) : json :=
  JObj [("type", JStr "object"); ("properties", JObj properties);
        ("required", JArr (map JStr required))].

Definition schema_optional (properties : object) : json :=
  JObj [("type", JStr "object"); ("properties", JObj properties)].

Definition ListTools_handler : list MCP.Tool :=
  [ {| MCP.name := "add"; MCP.description := Some "Add two numbers together";
       MCP.inputSchema := schema [("a", prop "number" "First number");
                              ("b", prop "number" "Second number")] ["a"; "b"] |};
    {| MCP.name := "multiply"; MCP.description := Some "Multiply two numbers";
       MCP.inputSchema := schema [("a", prop "number" "First number");
                              ("b", prop "number" "Second number")] ["a"; "b"] |};
    {| MCP.name := "power"; MCP.description := Some "Raise a number to a power";
       MCP.inputSchema := schema [("base", prop "number" "Base number");
                              ("exponent", prop "number" "Exponent")] ["base"; "exponent"] |};
    {| MCP.name := "factorial"; MCP.description := Some "Calculate the factorial of a number";
       MCP.inputSchema := schema [("n", prop "number" "Non-negative integer")] ["n"] |};
    {| MCP.name := "is_prime"; MCP.description := Some "Check if a number is prime";
       MCP.inputSchema := schema [("n", prop "number" "Number to check")] ["n"] |};
    {| MCP.name := "fibonacci"; MCP.description := Some "Calculate the nth Fibonacci number";
       MCP.inputSchema := schema [("n", prop "number" "Position in sequence (0-based)")] ["n"] |};
    {| MCP.name := "random"; MCP.description := Some "Generate a random number between min and max";
       MCP.inputSchema := schema_optional
                        [("min", prop_default "number" "Minimum value" (JNum 0%float));
                         ("max", prop_default "number" "Maximum value" (JNum 100%float))] |};
    {| MCP.name := "reverse_string"; MCP.description := Some "Reverse a string";
       MCP.inputSchema := schema [("text", prop "string" "Text to reverse")] ["text"] |};
    {| MCP.name := "word_count"; MCP.description := Some "Count words in text";
       MCP.inputSchema := schema [("text", prop "string" "Text to analyze")] ["text"] |};
    {| MCP.name := "current_time"; MCP.description := Some "Get current date and time";
       MCP.inputSchema := schema_optional
                        [("format", prop_default "string" "Format: 'iso' or 'local'" (JStr "iso"))] |} ].

(** [{ content: [{ type: "text", text }] }] *)
Definition text_item (text : string) : object :=
  [("type", JStr "text"); ("text", JStr text)].

Definition text_result (text : string) : result CallToolResult :=
  Ok {| content := Some (ContentItems [text_item text]) |}.

(** U+00D7 in UTF-8. *)
Definition TIMES : string := String "195"%char (String "151"%char EmptyString).

Definition tool_add {P : Platform} (args : option json) : result CallToolResult :=
  let? a := validateNumber (opt_get args "a") "a" in
  let? b := validateNumber (opt_get args "b") "b" in
  let result := (a + b)%float in
  text_result (Number_toString a ++ " + " ++ Number_toString b ++ " = " ++ Number_toString result).

Definition tool_multiply {P : Platform} (args : option json) : result CallToolResult :=
  let? a := validateNumber (opt_get args "a") "a" in
  let? b := validateNumber (opt_get args "b") "b" in
  let result := (a * b)%float in
  text_result (Number_toString a ++ " " ++ TIMES ++ " " ++ Number_toString b
                 ++ " = " ++ Number_toString result).

(** [for (let i = 2; i <= n; i++) result *= i], entered with n <= 170, so
    that the body runs at most 169 times. *)
Fixpoint factorial_loop (fuel : nat) (i n result : float) : float :=
  match fuel with
  | O => result
  | S fuel' =>
      if PrimFloat.leb i n then factorial_loop fuel' (i + 1)%float n (result * i)%float
      else result
  end.

Definition tool_factorial {P : Platform} (args : option json) : result CallToolResult :=
  let? n := validateNumber (opt_get args "n") "n" in
  if PrimFloat.ltb n 0%float || negb (Number_isInteger n) then
    Fail (McpError InvalidParams "Factorial requires a non-negative integer")
  else if PrimFloat.ltb 170%float n then
    Fail (McpError InvalidParams "Number too large (would exceed precision)")
  else
    let result := factorial_loop 170 2%float n 1%float in
    text_result (Number_toString n ++ "! = " ++ Number_toString result).

(** [for (let i = 2; i <= n; i++) [a, b] = [b, a + b]], entered with
    n <= 78; the value of [b] at the end. *)
Fixpoint fibonacci_loop (fuel : nat) (i n a b : float) : float :=
  match fuel with
  | O => b
  | S fuel' =>
      if PrimFloat.leb i n then fibonacci_loop fuel' (i + 1)%float n b (a + b)%float
      else b
  end.

Definition tool_fibonacci {P : Platform} (args : option json) : result CallToolResult :=
  let? n := validateNumber (opt_get args "n") "n" in
  if PrimFloat.ltb n 0%float || negb (Number_isInteger n) then
    Fail (McpError InvalidParams "Fibonacci requires non-negative integer")
  else if PrimFloat.ltb 78%float n then
    Fail (McpError InvalidParams "Number too large (would exceed precision)")
  else if PrimFloat.leb n 1%float then
    text_result ("Fibonacci(" ++ Number_toString n ++ ") = " ++ Number_toString n)
  else
    let b := fibonacci_loop 78 2%float n 0%float 1%float in
    text_result ("Fibonacci(" ++ Number_toString n ++ ") = " ++ Number_toString b).

Definition tool_random {P : Platform} (args : option json) : result CallToolResult :=
  let min := nullish (opt_get args "min") (JNum 0%float) in
  let max := nullish (opt_get args "max") (JNum 100%float) in
  let? min := validateNumber (Some min) "min" in
  let? max := validateNumber (Some max) "max" in
  if PrimFloat.ltb max min then
    Fail (McpError InvalidParams "min cannot be greater than max")
  else
    let result := 10%float in
    text_result ("Random number between " ++ Number_toString min ++ " and "
                   ++ Number_toString max ++ ": " ++ Number_toString result).

Definition unmodelled_cases : list string :=
  ["power"; "is_prime"; "reverse_string"; "word_count"; "current_time"].

(** The [switch (name)] of the CallToolRequest handler. *)
Definition CallTool_switch {P : Platform} (name : string) (args : option json)
  : result CallToolResult :=
  if String.eqb name "add" then tool_add args
  else if String.eqb name "multiply" then tool_multiply args
  else if String.eqb name "factorial" then tool_factorial args
  else if String.eqb name "fibonacci" then tool_fibonacci args
  else if String.eqb name "random" then tool_random args
  else if existsb (String.eqb name) unmodelled_cases then other_tool_cases name args
  else Fail (McpError MethodNotFound ("Unknown tool: " ++ name)).

(** The handler: the switch inside [try], [handleError] in [catch]. *)
Definition CallTool_handler {P : Platform} (name : string) (args : option json)
  : result CallToolResult :=
  match CallTool_switch name args with
  | Ok r => Ok r
  | Fail error => Fail (handleError error)
  end.

(** ** Paths (Node's [path] module on POSIX) *)

Definition path_isAbsolute (p : string) : bool :=
  match p with
  | String c _ => Ascii.eqb c "/"%char
  | EmptyString => false
  end.

(** The segments between the slashes of a path. *)
Fixpoint segments (p : string) : list string :=
  match p with
  | EmptyString => [EmptyString]
  | String c rest =>
      if Ascii.eqb c "/"%char then EmptyString :: segments rest
      else match segments rest with
           | [] => [String c EmptyString]
           | seg :: more => String c seg :: more
           end
  end.

(** One segment of [normalizeString] below the root: empty segments and
    ["."] are dropped, [".."] removes the segment before it, if any. *)
Definition normalize_step (res : list string) (seg : string) : list string :=
  if is_empty seg || String.eqb seg "." then res
  else if String.eqb seg ".." then removelast res
  else res ++ [seg].

Definition normalizeString (p : string) : list string :=
  fold_left normalize_step (segments p) [].

(** [path.resolve(cwd, arg)] for the absolute [cwd] of the process and an
    [arg] that is not absolute. *)
Definition path_resolve (cwd arg : string) : string :=
  "/" ++ String.concat "/" (normalizeString (cwd ++ "/" ++ arg ++ "/")).

(** ** The reasoning-model API (Anthropic SDK types) *)

Module Anthropic.
Record Tool : Type := {
  name : string;
  description : string;
  input_schema : json
}.

Inductive ContentBlock : Type :=
| TextBlock (text : string)
| ToolUseBlock (id name : string) (input : json)
| OtherBlock (type : string).

Inductive Role : Type := user | assistant.

(** A message's content: a plain string, the blocks of a model response,
    or the one-element list holding a tool_result block. *)
Inductive MessageContent : Type :=
| Text (s : string)
| Blocks (blocks : list ContentBlock)
| ToolResult (tool_use_id content : string).

Record MessageParam : Type := {
  role : Role;
  content : MessageContent
}.

Record MessageCreateParams : Type := {
  model : string;
  max_tokens : Z;
  messages : list MessageParam;
  tools : list Tool;
  system : string
}.
End Anthropic.

(** ** Steps *)

Module Step.
Inductive kind : Type := text | tool_use | tool_result.
Record t : Type := { type : kind; content : string }.
End Step.

(** ** The MCP client (lib/mcpClient.ts) *)

Record MCPServerConfig : Type := {
  command : string;
  args : list string;
  env : option (list (string * string))
}.

(** [Object.entries(config.mcpServers)] *)
Definition Config : Type := list (string * MCPServerConfig).

(** What leaves the process, in the order in which it happens. *)
Inductive event : Type :=
| Connect (serverName : string) (transport : MCPServerConfig)
| ListToolsRequest (serverName : string)
| CallToolRequest (serverName toolName : string) (input : json)
| Close (serverName : string)
| MessagesCreate (params : Anthropic.MessageCreateParams).

(** A connected SDK client: what its server answers, given the log so far.
    [Fail] is a rejected promise. *)
Record Client : Type := {
  tools_list : list event -> result (list MCP.Tool);
  tools_call : list event -> string -> json -> result CallToolResult;
  close : list event -> result unit
}.

Record ServerConnection : Type := {
  name : string;
  client : Client;
  transport : MCPServerConfig
}.

(** The world outside the client. *)
Record Host : Type := {
  ANTHROPIC_API_KEY : option string;
  mcpConfig_json : result Config;
  process_cwd : string;
  client_connect : list event -> string -> MCPServerConfig -> result Client;
  messages_create :
    list event -> Anthropic.MessageCreateParams -> result (list Anthropic.ContentBlock)
}.

(** The fields of the [MCPClient] object; [servers] is a [Map], kept in
    insertion order. *)
Record MCPClient : Type := {
  servers : list (string * ServerConnection);
  availableTools : list Anthropic.Tool
}.

Record State : Type := {
  this : MCPClient;
  log : list event
}.

(** How an asynchronous function ends; [OutOfFuel] stands for a loop that
    was cut off. *)
Inductive outcome (A : Type) : Type :=
| Returned (a : A)
| Thrown (e : exn)
| OutOfFuel.
Arguments Returned {A} a.
Arguments Thrown {A} e.
Arguments OutOfFuel {A}.

Definition M (A : Type) : Type := State -> outcome A * State.

Definition ret {A : Type} (a : A) : M A := fun st => (Returned a, st).

Definition throw {A : Type} (e : exn) : M A := fun st => (Thrown e, st).

Definition bind {A B : Type} (m : M A) (k : A -> M B) : M B :=
  fun st =>
    match m st with
    | (Returned a, st') => k a st'
    | (Thrown e, st') => (Thrown e, st')
    | (OutOfFuel, st') => (OutOfFuel, st')
    end.

Notation "x <- m ;; k" := (bind m (fun x => k))
  (at level 61, m at next level, right associativity).
Notation "m ;;; k" := (bind m (fun _ => k))
  (at level 61, right associativity).

(** [try { m } catch (err) { handler err }] *)
Definition try_catch {A : Type} (m : M A) (handler : exn -> M A) : M A :=
  fun st =>
    match m st with
    | (Thrown e, st') => handler e st'
    | r => r
    end.

(** [try { m } finally { f }] *)
Definition try_finally {A : Type} (m : M A) (f : M unit) : M A :=
  fun st =>
    match m st with
    | (r, st') =>
        match f st' with
        | (Returned _, st'') => (r, st'')
        | (Thrown e, st'') => (Thrown e, st'')
        | (OutOfFuel, st'') => (OutOfFuel, st'')
        end
    end.

Definition of_result {A : Type} (r : result A) : outcome A :=
  match r with
  | Ok a => Returned a
  | Fail e => Thrown e
  end.

(** An awaited call to the outside: answered from the log so far, then
    logged. *)
Definition ask {A : Type} (answer : list event -> result A) (e : event) : M A :=
  fun st => (of_result (answer (log st)), {| this := this st; log := log st ++ [e] |}).

Definition get_this : M MCPClient := fun st => (Returned (this st), st).

Definition set_this (c : MCPClient) : M unit :=
  fun st => (Returned tt, {| this := c; log := log st |}).

(** [Map.prototype.set]: an existing key keeps its place. *)
Fixpoint Map_set {V : Type} (k : string) (v : V) (m : list (string * V)) : list (string * V) :=
  match m with
  | [] => [(k, v)]
  | (k', v') :: rest =>
      if String.eqb k' k then (k, v) :: rest else (k', v') :: Map_set k v rest
  end.

(** [new MCPClient()] *)
Definition new_MCPClient (h : Host) : M unit :=
  match ANTHROPIC_API_KEY h with
  | Some apiKey =>
      if is_empty apiKey then throw (Error "Anthropic API key is required.")
      else set_this {| servers := []; availableTools := [] |}
  | None => throw (Error "Anthropic API key is required.")
  end.

Definition readConfigJson (h : Host) : M Config :=
  fun st => (of_result (mcpConfig_json h), st).

(** [serverInfo.args.map(arg => path.isAbsolute(arg) ? arg : path.resolve(process.cwd(), arg))] *)
Definition resolveArgs (cwd : string) (args : list string) : list string :=
  map (fun arg => if path_isAbsolute arg then arg else path_resolve cwd arg) args.

(** [tool.description || tool.name] *)
Definition description_or_name (tool : MCP.Tool) : string :=
  match MCP.description tool with
  | Some d => if is_empty d then MCP.name tool else d
  | None => MCP.name tool
  end.

Definition toAnthropicTool (tool : MCP.Tool) : Anthropic.Tool :=
  {| Anthropic.name := MCP.name tool;
     Anthropic.description := description_or_name tool;
     Anthropic.input_schema := MCP.inputSchema tool |}.

(** The body of [for (const [serverName, serverInfo] of Object.entries(mcpServers))],
    with the local [tools] array as an accumulator. *)
Fixpoint connectLoop (h : Host) (entries : Config) (tools : list Anthropic.Tool)
  : M (list Anthropic.Tool) :=
  match entries with
  | [] => ret tools
  | (serverName, serverInfo) :: rest =>
      let resolvedArgs := resolveArgs (process_cwd h) (args serverInfo) in
      let transport :=
        {| command := command serverInfo; args := resolvedArgs; env := env serverInfo |} in
      client <- ask (fun l => client_connect h l serverName transport)
                    (Connect serverName transport) ;;
      c <- get_this ;;
      set_this {| servers := Map_set serverName
                               {| name := serverName; client := client; transport := transport |}
                               (servers c);
                  availableTools := availableTools c |} ;;;
      toolsResponse <- ask (tools_list client) (ListToolsRequest serverName) ;;
      connectLoop h rest (tools ++ map toAnthropicTool toolsResponse)
  end.

Definition connectToServers (h : Host) : M unit :=
  mcpServers <- readConfigJson h ;;
  tools <- connectLoop h mcpServers [] ;;
  c <- get_this ;;
  set_this {| servers := servers c; availableTools := tools |}.

(** *** executeTool *)

Definition NO_OUTPUT : string := "Tool executed successfully (no output).".

Definition content_json (c : ToolContent) : json :=
  match c with
  | ContentItems items => JArr (map JObj items)
  | ContentString s => JStr s
  | ContentNull => JNull
  | ContentBool b => JBool b
  | ContentNumber x => JNum x
  | ContentObject o => JObj o
  end.

(** [c.text || JSON.stringify(c)], as [join] prints it. *)
Definition item_text {P : Platform} (c : object) : string :=
  match get "text" c with
  | Some t => if truthy t then ToString t else JSON_stringify (JObj c)
  | None => JSON_stringify (JObj c)
  end.

(** From [const content = result.content] to the [return] that is taken. *)
Definition normalizeContent {P : Platform} (content : option ToolContent) : string :=
  match content with
  | None => NO_OUTPUT
  | Some c =>
      if negb (truthy (content_json c)) then NO_OUTPUT
      else
        match c with
        | ContentItems items => String.concat LF (map item_text items)
        | ContentString s => s
        | _ => JSON_stringify_2 (content_json c)
        end
  end.

Definition not_found (toolName : string) : string :=
  "Tool '" ++ toolName ++ "' not found in any server.".

(** [for (const [serverName, connection] of this.servers)] with its
    [try]/[catch]; after the loop, the not-found string. *)
Fixpoint executeTool_loop {P : Platform} (conns : list (string * ServerConnection))
  (toolName : string) (input : json) : M string :=
  match conns with
  | [] => ret (not_found toolName)
  | (serverName, connection) :: rest =>
      try_catch
        (result <- ask (fun l => tools_call (client connection) l toolName input)
                       (CallToolRequest serverName toolName input) ;;
         ret (normalizeContent (content result)))
        (fun err => executeTool_loop rest toolName input)
  end.

Definition executeTool {P : Platform} (toolName : string) (input : json) : M string :=
  c <- get_this ;;
  executeTool_loop (servers c) toolName input.

(** *** processQuery *)

Definition SYSTEM_PROMPT : string :=
  "You are a helpful assistant that uses tools to solve problems step-by-step.".

(** The local variables [steps] and [messages] of [processQuery]. *)
Record Locals : Type := {
  steps : list Step.t;
  messages : list Anthropic.MessageParam
}.

(** The argument of [this.anthropic.messages.create]. *)
Definition create_params (tools : list Anthropic.Tool) (messages : list Anthropic.MessageParam)
  : Anthropic.MessageCreateParams :=
  {| Anthropic.model := "claude-3-5-sonnet-20241022";
     Anthropic.max_tokens := 4096;
     Anthropic.messages := messages;
     Anthropic.tools := tools;
     Anthropic.system := SYSTEM_PROMPT |}.

Definition user_query (query : string) : Anthropic.MessageParam :=
  {| Anthropic.role := Anthropic.user; Anthropic.content := Anthropic.Text query |}.

(** The two messages pushed after a tool call. *)
Definition tool_messages (response : list Anthropic.ContentBlock) (id toolResult : string)
  : list Anthropic.MessageParam :=
  [ {| Anthropic.role := Anthropic.assistant; Anthropic.content := Anthropic.Blocks response |};
    {| Anthropic.role := Anthropic.user; Anthropic.content := Anthropic.ToolResult id toolResult |} ].

(** [await this.anthropic.messages.create({ ... })] *)
Definition anthropic_messages_create (h : Host) (messages : list Anthropic.MessageParam)
  : M (list Anthropic.ContentBlock) :=
  c <- get_this ;;
  let params := create_params (availableTools c) messages in
  ask (fun l => messages_create h l params) (MessagesCreate params).

Definition text_step (s : string) : Step.t :=
  {| Step.type := Step.text; Step.content := s |}.

Definition tool_use_step {P : Platform} (toolName : string) (toolInput : json) : Step.t :=
  {| Step.type := Step.tool_use;
     Step.content := "Tool: " ++ toolName ++ LF ++ "Input:" ++ LF ++ JSON_stringify_2 toolInput |}.

Definition tool_result_step (toolResult : string) : Step.t :=
  {| Step.type := Step.tool_result; Step.content := toolResult |}.

(** [for (const content of response.content)]: the blocks still to visit,
    the whole response (pushed to [messages] on a tool use), the locals.
    Returns [usedTool] and the locals. *)
Fixpoint forContent {P : Platform} (response_content blocks : list Anthropic.ContentBlock)
  (v : Locals) : M (bool * Locals) :=
  match blocks with
  | [] => ret (false, v)
  | Anthropic.TextBlock text :: rest =>
      forContent response_content rest
        {| steps := steps v ++ [text_step text]; messages := messages v |}
  | Anthropic.ToolUseBlock id toolName toolInput :: _ =>
      toolResult <- executeTool toolName toolInput ;;
      ret (true,
           {| steps := steps v ++ [tool_use_step toolName toolInput; tool_result_step toolResult];
              messages := messages v ++ tool_messages response_content id toolResult |})
  | Anthropic.OtherBlock _ :: rest => forContent response_content rest v
  end.

(** [while (true)], one turn per unit of fuel. *)
Fixpoint whileLoop {P : Platform} (h : Host) (fuel : nat)
  (response : list Anthropic.ContentBlock) (v : Locals) : M (list Step.t) :=
  match fuel with
  | O => fun st => (OutOfFuel, st)
  | S fuel' =>
      r <- forContent response response v ;;
      let (usedTool, v') := r in
      if negb usedTool then ret (steps v')
      else
        response' <- anthropic_messages_create h (messages v') ;;
        whileLoop h fuel' response' v'
  end.

Definition processQuery {P : Platform} (h : Host) (fuel : nat) (query : string)
  : M (list Step.t) :=
  c <- get_this ;;
  match availableTools c with
  | [] => throw (Error "No tools available. Please call connectToServers() first.")
  | _ :: _ =>
      let messages := [user_query query] in
      response <- anthropic_messages_create h messages ;;
      whileLoop h fuel response {| steps := []; messages := messages |}
  end.

(** *** cleanup *)

(** [await client.close().catch(() => { })] for every connection. *)
Fixpoint cleanup_loop (conns : list (string * ServerConnection)) : M unit :=
  match conns with
  | [] => ret tt
  | (_, connection) :: rest =>
      try_catch (ask (close (client connection)) (Close (name connection)))
                (fun _ => ret tt) ;;;
      cleanup_loop rest
  end.

Definition cleanup : M unit :=
  c <- get_this ;;
  cleanup_loop (servers c) ;;;
  set_this {| servers := []; availableTools := [] |}.

(** ** The server action (lib/actions.ts) *)

Definition runQuery {P : Platform} (h : Host) (fuel : nat) (query : string) : M (list Step.t) :=
  new_MCPClient h ;;;
  connectToServers h ;;;
  result <- processQuery h fuel query ;;
  cleanup ;;;
  ret result.

(** The server action as the repository's documentation gives it
    (README, "Server Action Bridge"): discovery and the query inside [try],
    [cleanup] in [finally]. *)
Definition runQuery_documented {P : Platform} (h : Host) (fuel : nat) (query : string)
  : M (list Step.t) :=
  new_MCPClient h ;;;
  try_finally
    (connectToServers h ;;;
     result <- processQuery h fuel query ;;
     ret result)
    cleanup.

(** ** Vocabulary of the statements *)

(** [needle] occurs in [s]. *)
Fixpoint contains (needle s : string) : bool :=
  String.prefix needle s
  || match s with
     | EmptyString => false
     | String _ rest => contains needle rest
     end.

(** The request [executeTool] sends to one registered server. *)
Definition request_of (toolName : string) (input : json) (entry : string * ServerConnection)
  : event :=
  CallToolRequest (fst entry) toolName input.

(** Each of the servers rejects the call when its turn comes: the first
    with the log [l], the next with [l] and the request to the first, and
    so on. *)
Fixpoint all_reject (l : list event) (conns : list (string * ServerConnection))
  (toolName : string) (input : json) : Prop :=
  match conns with
  | [] => True
  | entry :: rest =>
      (exists e, tools_call (client (snd entry)) l toolName input = Fail e)
      /\ all_reject (l ++ [request_of toolName input entry]) rest toolName input
  end.

Definition is_tool_use (b : Anthropic.ContentBlock) : bool :=
  match b with
  | Anthropic.ToolUseBlock _ _ _ => true
  | _ => false
  end.

(** The text Steps a run of blocks without tool use gives rise to. *)
Fixpoint text_steps (blocks : list Anthropic.ContentBlock) : list Step.t :=
  match blocks with
  | [] => []
  | Anthropic.TextBlock s :: rest => text_step s :: text_steps rest
  | _ :: rest => text_steps rest
  end.

Definition is_model_call (e : event) : bool :=
  match e with
  | MessagesCreate _ => true
  | _ => false
  end.

Definition model_calls (l : list event) : nat := length (filter is_model_call l).

Definition is_close (e : event) : bool :=
  match e with
  | Close _ => true
  | _ => false
  end.

Definition not_close (e : event) : bool := negb (is_close e).

(** A computation only appends to the log, and appends no [Close]. *)
Definition appends {A : Type} (m : M A) : Prop :=
  forall st, exists evs,
    log (snd (m st)) = (log st ++ evs)%list /\ forallb not_close evs = true.

(** Result normalization as the specification words it: an item's text
    when the item has one, else the item serialized; a string as it is;
    the fixed string for absent content. *)
Definition item_text_spec {P : Platform} (c : object) : string :=
  match get "text" c with
  | Some t => ToString t
  | None => JSON_stringify (JObj c)
  end.

Definition normalizeContent_spec {P : Platform} (content : option ToolContent) : string :=
  match content with
  | None => NO_OUTPUT
  | Some (ContentItems items) => String.concat LF (map item_text_spec items)
  | Some (ContentString s) => s
  | Some c => normalizeContent (Some c)
  end.

(** ** Concrete servers and hosts *)

Definition n171 : json := JObj [("n", JNum 171%float)].

Definition a15_b32 : json := JObj [("a", JNum 15%float); ("b", JNum 32%float)].

(** A platform to run examples on. *)
Definition sampleP : Platform :=
  {| Number_toString_other := fun _ => "NaN";
     other_tool_cases := fun name _ => Fail (McpError InternalError "not available") |}.

(** A connection to the math tool server: requests are answered by its
    handlers, and a thrown [McpError] rejects the request. *)
Definition math_client {P : Platform} : Client :=
  {| tools_list := fun _ => Ok ListTools_handler;
     tools_call := fun _ toolName input => CallTool_handler toolName (Some input);
     close := fun _ => Ok tt |}.

Definition math_transport (cwd : string) : MCPServerConfig :=
  {| command := "node"; args := resolveArgs cwd ["./mcp-tools/math-server.js"]; env := None |}.

Definition math_connection {P : Platform} : ServerConnection :=
  {| name := "math-server"; client := math_client; transport := math_transport "/app" |}.

(** mcpConfig.json of the repository. *)
Definition mcpConfig : Config :=
  [("math-server",
    {| command := "node"; args := ["./mcp-tools/math-server.js"]; env := None |})].

(** A server whose transport is broken: every request is rejected. *)
Definition broken_client : Client :=
  {| tools_list := fun _ => Fail (Error "Connection closed");
     tools_call := fun _ _ _ => Fail (Error "Connection closed");
     close := fun _ => Fail (Error "Connection closed") |}.

Definition broken_connection : ServerConnection :=
  {| name := "broken";
     client := broken_client;
     transport := {| command := "node"; args := ["/srv/broken.js"]; env := None |} |}.

(** A host that runs in /app, starts the math server for every descriptor
    and whose reasoning model answers [model]. *)
Definition host_with {P : Platform}
  (model : list event -> Anthropic.MessageCreateParams -> result (list Anthropic.ContentBlock))
  : Host :=
  {| ANTHROPIC_API_KEY := Some "sk-ant-test";
     mcpConfig_json := Ok mcpConfig;
     process_cwd := "/app";
     client_connect := fun _ _ _ => Ok math_client;
     messages_create := model |}.

(** The reasoning model is unreachable. *)
Definition failing_model_host {P : Platform} : Host :=
  host_with (fun _ _ => Fail (Error "529 overloaded")).

(** The reasoning model answers with two text blocks. *)
Definition text_only_host {P : Platform} : Host :=
  host_with (fun _ _ => Ok [Anthropic.TextBlock "Hello."; Anthropic.TextBlock "How can I help?"]).

(** The reasoning model first asks for factorial(171) and, once it has
    been called, answers with text. *)
Definition factorial_host {P : Platform} : Host :=
  host_with (fun l _ =>
               if Nat.eqb (model_calls l) 0
               then Ok [Anthropic.ToolUseBlock "toolu_1" "factorial" n171]
               else Ok [Anthropic.TextBlock "I could not compute 171!."]).

Definition initial : State :=
  {| this := {| servers := []; availableTools := [] |}; log := [] |}.

(** A client connected to the math server only. *)
Definition math_state {P : Platform} : State :=
  {| this := {| servers := [("math-server", math_connection)];
                availableTools := map toAnthropicTool ListTools_handler |};
     log := [] |}.

(** The same on the sample platform. *)
Definition sample_state : State := @math_state sampleP.

(** A client with three registered servers, the first of them broken. *)
Definition three_servers : State :=
  {| this := {| servers := [("broken", broken_connection);
                            ("math-server", @math_connection sampleP);
                            ("backup", @math_connection sampleP)];
                availableTools := [] |};
     log := [] |}.

(** A response with a text block and two tool-use blocks. *)
Definition two_tool_response : list Anthropic.ContentBlock :=
  [ Anthropic.TextBlock "Let me calculate.";
    Anthropic.ToolUseBlock "toolu_1" "multiply" a15_b32;
    Anthropic.TextBlock "and also";
    Anthropic.ToolUseBlock "toolu_2" "factorial" n171 ].

(** ** Further vocabulary *)

(** The double of a small natural number, and the decimal digits of an
    integer. *)
Definition Number_of_nat (k : nat) : float :=
  PrimFloat.of_uint63 (Uint63.of_Z (Z.of_nat k)).

Definition decimal (z : Z) : string := NilZero.string_of_int (Z.to_int z).

Fixpoint factorial_Z (k : nat) : Z :=
  match k with
  | O => 1%Z
  | S k' => (Z.of_nat k * factorial_Z k')%Z
  end.

(** The Fibonacci numbers F(k) and F(k+1). *)
Fixpoint fib_pair (k : nat) : Z * Z :=
  match k with
  | O => (0%Z, 1%Z)
  | S k' => let (a, b) := fib_pair k' in (b, (a + b)%Z)
  end.

Definition fibonacci_Z (k : nat) : Z := fst (fib_pair k).

(** The arguments [{ n: x }]. *)
Definition n_arg (x : float) : option json := Some (JObj [("n", JNum x)]).


(** One [Close] per connection, in registration order. *)
Definition closes (conns : list (string * ServerConnection)) : list event :=
  map (fun entry => Close (name (snd entry))) conns.

Definition empty_client : MCPClient := {| servers := []; availableTools := [] |}.



Definition is_call_tool (e : event) : bool :=
  match e with
  | CallToolRequest _ _ _ => true
  | _ => false
  end.

Definition is_type (k : Step.kind) (s : Step.t) : bool :=
  match k, Step.type s with
  | Step.text, Step.text => true
  | Step.tool_use, Step.tool_use => true
  | Step.tool_result, Step.tool_result => true
  | _, _ => false
  end.

Definition count_type (k : Step.kind) (l : list Step.t) : nat := length (filter (is_type k) l).

(** Every tool_use Step is directly followed by a tool_result Step, and
    there is no other tool_result Step. *)
Fixpoint well_paired (l : list Step.t) : bool :=
  match l with
  | [] => true
  | s :: rest =>
      match Step.type s with
      | Step.text => well_paired rest
      | Step.tool_use =>
          match rest with
          | r :: rest' => is_type Step.tool_result r && well_paired rest'
          | [] => false
          end
      | Step.tool_result => false
      end
  end.

(** [validateNumber] accepts the value. *)
Definition valid_number (value : option json) : bool :=
  match value with
  | Some (JNum x) => negb (Number_isNaN x)
  | _ => false
  end.

(** ** The page (app/mcp/page.tsx) *)

Fixpoint bytes (s : string) : list nat :=
  match s with
  | EmptyString => []
  | String c rest => nat_of_ascii c :: bytes rest
  end.

(** White space and line terminators of one byte: TAB, LF, VT, FF, CR, SP. *)
Definition white1 (a : nat) : bool :=
  (Nat.leb 9 a && Nat.leb a 13) || Nat.eqb a 32.

(** U+00A0 in UTF-8. *)
Definition white2 (a b : nat) : bool := Nat.eqb a 194 && Nat.eqb b 160.

(** U+1680, U+2000..U+200A, U+2028, U+2029, U+202F, U+205F, U+3000 and
    U+FEFF in UTF-8. *)
Definition white3 (a b c : nat) : bool :=
  (Nat.eqb a 225 && Nat.eqb b 154 && Nat.eqb c 128)
  || (Nat.eqb a 226 && Nat.eqb b 128
      && ((Nat.leb 128 c && Nat.leb c 138) || Nat.eqb c 168 || Nat.eqb c 169 || Nat.eqb c 175))
  || (Nat.eqb a 226 && Nat.eqb b 129 && Nat.eqb c 159)
  || (Nat.eqb a 227 && Nat.eqb b 128 && Nat.eqb c 128)
  || (Nat.eqb a 239 && Nat.eqb b 187 && Nat.eqb c 191).

Fixpoint white_only (l : list nat) : bool :=
  match l with
  | [] => true
  | a :: r =>
      if white1 a then white_only r
      else
        match r with
        | [] => false
        | b :: r' =>
            if white2 a b then white_only r'
            else
              match r' with
              | [] => false
              | c :: r'' => if white3 a b c then white_only r'' else false
              end
        end
  end.

(** [!query.trim()] *)
Definition is_blank (query : string) : bool := white_only (bytes query).

Module UI.
Record state : Type := {
  query : string;
  steps : list Step.t;
  loading : bool
}.
End UI.

(** U+274C in UTF-8. *)
Definition CROSS : string :=
  String "226"%char (String "157"%char (String "140"%char EmptyString)).

(** [handleRun], from the state of the page to its state when the handler
    is done; [String_ err] is [String(err)] for what the server action
    threw. *)
Definition handleRun {P : Platform} (String_ : exn -> string) (h : Host) (fuel : nat)
  (ui : UI.state) : M UI.state :=
  if is_blank (UI.query ui) then ret ui
  else
    try_catch
      (result <- runQuery h fuel (UI.query ui) ;;
       ret {| UI.query := UI.query ui; UI.steps := result; UI.loading := false |})
      (fun err =>
         ret {| UI.query := UI.query ui;
                UI.steps := [text_step (CROSS ++ " Error: " ++ String_ err)];
                UI.loading := false |}).

(** ** The workspace socket (hooks/useWorkspaceSocket.tsx) *)

(** What the [onmessage] handler does: [appendMessage(text, type)]; a
    call of the [onMessage] callback; and, through [setTimeout], the
    sending of a payload followed by [appendMessage(text, type)]. *)
Inductive effect : Type :=
| Append (text type : string)
| Forward (message : json)
| Later (payload : json) (text type : string).

(** [data.key] for parsed data other than [null]. *)
Definition prop_of (data : json) (key : string) : option json :=
  match data with
  | JObj o => get key o
  | _ => None
  end.

(** [v === s] *)
Definition is_string (v : option json) (s : string) : bool :=
  match v with
  | Some (JStr t) => String.eqb t s
  | _ => false
  end.

(** A value inside a template literal. *)
Definition template {P : Platform} (v : option json) : string :=
  match v with
  | None => "undefined"
  | Some j => ToString j
  end.

(** [data.path || 'root'] inside a template literal. *)
Definition path_or_root {P : Platform} (v : option json) : string :=
  match v with
  | Some j => if truthy j then ToString j else "root"
  | None => "root"
  end.

(** A property of an object literal as [JSON.stringify] keeps it: left
    out when its value is [undefined]. *)
Definition optional (key : string) (v : option json) : object :=
  match v with
  | Some j => [(key, j)]
  | None => []
  end.

(** U+1F50D, U+1F4C1 and U+2705 in UTF-8. *)
Definition MAGNIFIER : string :=
  String "240"%char (String "159"%char (String "148"%char (String "141"%char EmptyString))).

Definition FOLDER : string :=
  String "240"%char (String "159"%char (String "147"%char (String "129"%char EmptyString))).

Definition CHECK : string :=
  String "226"%char (String "156"%char (String "133"%char EmptyString)).

Definition is_greeting (data : json) : bool := is_string (prop_of data "type") "greeting".

Definition is_folder_request (data : json) : bool :=
  is_string (prop_of data "command") "read_folder_request"
  || is_string (prop_of data "type") "folder_request".

Definition is_folder_update (data : json) : bool :=
  is_string (prop_of data "command") "update_folder_request"
  || is_string (prop_of data "type") "folder_update".

Definition folder_response (data : json) (structure : option json) : json :=
  JObj ([("command", JStr "folder_response"); ("type", JStr "folder_response")]
          ++ optional "message_id" (prop_of data "message_id")
          ++ optional "path" (prop_of data "path")
          ++ optional "folder_structure" structure).

Definition folder_updated (data : json) : json :=
  JObj ([("command", JStr "folder_updated"); ("type", JStr "folder_updated")]
          ++ optional "message_id" (prop_of data "message_id")
          ++ [("status", JStr "success"); ("message", JStr "Folder updated successfully")]).

(** [ws.onmessage]: [raw] is [event.data], [parsed] what [JSON.parse]
    makes of it, [structure] is [structureRef.current] and [onMessage] is
    [onMessageRef.current], a callback that may throw. *)
Definition onmessage {P : Platform} (structure : option json)
  (onMessage : option (json -> result unit)) (raw : string) (parsed : result json)
  : list effect :=
  let caught := Append ("Raw: " ++ raw) "received" in
  match parsed with
  | Fail _ => [caught]
  | Ok JNull => [caught]
  | Ok data =>
      if is_greeting data then
        [Append ("Server: " ++ template (prop_of data "message")) "system"]
      else if is_folder_request data then
        [Append (MAGNIFIER ++ " MCP requesting folder: " ++ path_or_root (prop_of data "path"))
                "reply-request";
         Later (folder_response data structure) (CHECK ++ " Sent folder structure") "reply"]
      else if is_folder_update data then
        let announce :=
          Append (FOLDER ++ " MCP updating folder: " ++ path_or_root (prop_of data "path"))
                 "reply-request" in
        let respond :=
          Later (folder_updated data) (CHECK ++ " Folder updated successfully") "reply" in
        match prop_of data "folder_structure", onMessage with
        | Some folder_structure, Some callback =>
            if truthy folder_structure then
              let message := JObj [("type", JStr "update_structure");
                                   ("data", folder_structure)] in
              match callback message with
              | Ok _ => [announce; Forward message; respond]
              | Fail _ => [announce; Forward message; caught]
              end
            else [announce; respond]
        | _, _ => [announce; respond]
        end
      else
        let received :=
          match prop_of data "message" with
          | Some m => if truthy m then [Append ("Received: " ++ ToString m) "received"] else []
          | None => []
          end in
        match onMessage with
        | Some callback =>
            match callback data with
            | Ok _ => Forward data :: received
            | Fail _ => [Forward data; caught]
            end
        | None => received
        end
  end.

Definition is_later (e : effect) : bool :=
  match e with Later _ _ _ => true | _ => false end.

Definition is_forward (e : effect) : bool :=
  match e with Forward _ => true | _ => false end.

(** A folder request and a folder update as the socket delivers them. *)
Definition folder_request_42 : json :=
  JObj [("type", JStr "folder_request"); ("message_id", JStr "42"); ("path", JStr "src")].

Definition folder_update_43 : json :=
  JObj [("command", JStr "update_folder_request"); ("message_id", JStr "43");
        ("folder_structure", JObj [("name", JStr "root"); ("type", JStr "folder")])].

(** ** Further hosts *)


(** A reasoning model that asks for the random tool again and again. *)
Definition looping_host {P : Platform} : Host :=
  host_with (fun _ _ => Ok [Anthropic.ToolUseBlock "toolu_n" "random" (JObj [])]).

(** The reasoning model asks for 15 times 32 and then answers; in the
    second host its second call fails. *)
Definition multiply_host {P : Platform} : Host :=
  host_with (fun l _ =>
               if Nat.eqb (model_calls l) 0
               then Ok [Anthropic.TextBlock "Let me calculate.";
                        Anthropic.ToolUseBlock "toolu_1" "multiply" a15_b32]
               else Ok [Anthropic.TextBlock "15 * 32 = 480."]).


Definition after_multiply : State :=
  {| this := this sample_state;
     log := [MessagesCreate (create_params (availableTools (this sample_state))
                                           [user_query "What is 15 * 32?"]);
             CallToolRequest "math-server" "multiply" a15_b32] |}.

(** A host whose configuration names no server. *)
Definition no_server_host : Host :=
  {| ANTHROPIC_API_KEY := Some "sk-ant-test";
     mcpConfig_json := Ok [];
     process_cwd := "/app";
     client_connect := fun _ _ _ => Fail (Error "unused");
     messages_create := fun _ _ => Ok [Anthropic.TextBlock "Hello."] |}.

(** [String(err)] for the errors of the examples. *)
Definition sample_String (e : exn) : string :=
  match e with
  | McpError _ message => "McpError: " ++ message
  | Error message => "Error: " ++ message
  end.

(** * Properties *)

(** ** Strings *)

Lemma prefix_app (n b : string) : String.prefix n (n ++ b) = true.
Proof.
  induction n as [| c n IH]; simpl.
  - destruct b; reflexivity.
  - destruct (ascii_dec c c) as [_ | Hne]; [exact IH | congruence].
Qed.

Lemma contains_unfold (n s : string) :
  contains n s =
  (String.prefix n s
   || match s with EmptyString => false | String _ rest => contains n rest end).
Proof. destruct s; reflexivity. Qed.

Lemma contains_app (n a b : string) : contains n (a ++ n ++ b) = true.
Proof.
  induction a as [| c a IH]; simpl.
  - rewrite contains_unfold, prefix_app. reflexivity.
  - rewrite IH. apply orb_true_r.
Qed.

Lemma string_app_assoc (a b c : string) : (a ++ b) ++ c = a ++ b ++ c.
Proof. induction a as [| x a IH]; simpl; [reflexivity | now rewrite IH]. Qed.

Lemma not_found_has_name (toolName : string) :
  contains toolName (not_found toolName) = true.
Proof. unfold not_found. apply contains_app. Qed.

Lemma not_found_says_so (toolName : string) :
  contains "not found" (not_found toolName) = true.
Proof.
  unfold not_found.
  change ("' not found in any server.") with ("' " ++ "not found" ++ " in any server.").
  rewrite <- (string_app_assoc toolName), <- (string_app_assoc "Tool '").
  apply contains_app.
Qed.

(** ** executeTool *)

Section ExecuteTool.
Context {P : Platform}.
Variables (toolName : string) (input : json).

Lemma executeTool_loop_all_reject (conns : list (string * ServerConnection)) :
  forall st,
    all_reject (log st) conns toolName input ->
    executeTool_loop conns toolName input st =
    (Returned (not_found toolName),
     {| this := this st; log := log st ++ map (request_of toolName input) conns |}).
Proof.
  induction conns as [| [sn c] rest IH]; intros st Hrej; simpl.
  - unfold ret. rewrite app_nil_r. destruct st; reflexivity.
  - destruct Hrej as [[e He] Hrest]. simpl in He.
    unfold try_catch, bind, ask. rewrite He. simpl.
    rewrite IH by exact Hrest. simpl. rewrite <- app_assoc. reflexivity.
Qed.

Lemma executeTool_loop_first_success
  (pre : list (string * ServerConnection)) (sn : string) (c : ServerConnection)
  (post : list (string * ServerConnection)) (result : CallToolResult) :
  forall st,
    all_reject (log st) pre toolName input ->
    tools_call (client c) (log st ++ map (request_of toolName input) pre) toolName input
    = Ok result ->
    executeTool_loop (pre ++ (sn, c) :: post) toolName input st =
    (Returned (normalizeContent (content result)),
     {| this := this st;
        log := log st ++ map (request_of toolName input) (pre ++ [(sn, c)]) |}).
Proof.
  induction pre as [| [sn' c'] rest IH]; intros st Hrej Hok; simpl in *.
  - unfold try_catch, bind, ask. rewrite app_nil_r in Hok. rewrite Hok. reflexivity.
  - destruct Hrej as [[e He] Hrest].
    unfold try_catch, bind, ask. rewrite He. simpl. rewrite IH.
    + simpl. rewrite <- app_assoc. reflexivity.
    + exact Hrest.
    + simpl. rewrite <- app_assoc. exact Hok.
Qed.

(** The loop over the servers always returns a string; it has contacted a
    first part of the registered servers, in order, and nothing else. *)
Lemma executeTool_loop_returns (conns : list (string * ServerConnection)) :
  forall st, exists toolResult n,
    executeTool_loop conns toolName input st =
    (Returned toolResult,
     {| this := this st;
        log := log st ++ map (request_of toolName input) (firstn n conns) |}).
Proof.
  induction conns as [| [sn c] rest IH]; intros st; simpl.
  - exists (not_found toolName), 0. unfold ret. simpl. rewrite app_nil_r.
    destruct st; reflexivity.
  - unfold try_catch, bind, ask.
    destruct (tools_call (client c) (log st) toolName input) as [r | e]; simpl.
    + exists (normalizeContent (content r)), 1. reflexivity.
    + destruct (IH {| this := this st;
                      log := log st ++ [CallToolRequest sn toolName input] |})
        as (r & n & Hr).
      exists r, (S n). rewrite Hr. simpl. rewrite <- app_assoc. reflexivity.
Qed.

Lemma executeTool_returns (st : State) :
  exists toolResult n,
    executeTool toolName input st =
    (Returned toolResult,
     {| this := this st;
        log := log st ++ map (request_of toolName input) (firstn n (servers (this st))) |}).
Proof.
  unfold executeTool, bind, get_this. apply executeTool_loop_returns.
Qed.

(** A tool-use block at the head of the blocks still to visit: the tool is
    executed, two Steps and two messages are added, and the rest of the
    blocks is not looked at. *)
Lemma forContent_tool_use (response rest : list Anthropic.ContentBlock) (id : string)
  (v : Locals) (st st' : State) (toolResult : string) :
  executeTool toolName input st = (Returned toolResult, st') ->
  forContent response (Anthropic.ToolUseBlock id toolName input :: rest) v st =
  (Returned (true,
             {| steps := steps v ++ [tool_use_step toolName input; tool_result_step toolResult];
                messages := messages v ++ tool_messages response id toolResult |}),
   st').
Proof.
  intros He. simpl. unfold bind. rewrite He. reflexivity.
Qed.

End ExecuteTool.

(** Text and other blocks before the first tool-use block only add the
    text Steps. *)
Lemma forContent_skip {P : Platform} (response pre rest : list Anthropic.ContentBlock) :
  existsb is_tool_use pre = false ->
  forall v st,
    forContent response (pre ++ rest) v st =
    forContent response rest
      {| steps := steps v ++ text_steps pre; messages := messages v |} st.
Proof.
  induction pre as [| b pre IH]; intros Hpre v st; simpl.
  - rewrite app_nil_r. destruct v; reflexivity.
  - destruct b as [s | i n x | ty]; simpl in Hpre.
    + rewrite IH by exact Hpre. simpl. rewrite <- app_assoc. reflexivity.
    + discriminate.
    + apply IH. exact Hpre.
Qed.

(** A response with a tool-use block splits at its first one. *)
Lemma first_tool_use_split (response : list Anthropic.ContentBlock) :
  existsb is_tool_use response = true ->
  exists pre id toolName input post,
    response = (pre ++ Anthropic.ToolUseBlock id toolName input :: post)%list
    /\ existsb is_tool_use pre = false.
Proof.
  induction response as [| b response IH]; simpl; [discriminate |].
  destruct b as [s | i n x | ty]; simpl.
  - intros H. destruct (IH H) as (pre & id & tn & inp & post & -> & Hpre).
    exists (Anthropic.TextBlock s :: pre), id, tn, inp, post. split; [reflexivity | exact Hpre].
  - intros _. exists [], i, n, x, response. split; reflexivity.
  - intros H. destruct (IH H) as (pre & id & tn & inp & post & -> & Hpre).
    exists (Anthropic.OtherBlock ty :: pre), id, tn, inp, post. split; [reflexivity | exact Hpre].
Qed.

Lemma existsb_tool_use_texts (texts : list string) :
  existsb is_tool_use (map Anthropic.TextBlock texts) = false.
Proof. induction texts; simpl; auto. Qed.

Lemma text_steps_texts (texts : list string) :
  text_steps (map Anthropic.TextBlock texts) = map text_step texts.
Proof. induction texts as [| s texts IH]; simpl; [reflexivity | now rewrite IH]. Qed.

Lemma model_calls_snoc (l : list event) (p : Anthropic.MessageCreateParams) :
  model_calls (l ++ [MessagesCreate p]) = S (model_calls l).
Proof.
  unfold model_calls. rewrite filter_app, length_app. simpl. lia.
Qed.

(** ** The Tool Invoker *)

(** C5: when every connected server rejects the call of a tool name as
    its turn comes, [executeTool] returns (it does not throw) the not-found string, which
    contains the tool name and the words "not found"; the turn of the
    conversation loop that asked for the tool returns normally, with that
    string as its tool_result Step. *)
Theorem executeTool_not_found {P : Platform} (toolName : string) (input : json) (st : State) :
  all_reject (log st) (servers (this st)) toolName input ->
  let st' := {| this := this st;
                log := log st ++ map (request_of toolName input) (servers (this st)) |} in
  executeTool toolName input st = (Returned (not_found toolName), st')
  /\ not_found toolName = "Tool '" ++ toolName ++ "' not found in any server."
  /\ contains toolName (not_found toolName) = true
  /\ contains "not found" (not_found toolName) = true
  /\ (forall response id rest v,
        forContent response (Anthropic.ToolUseBlock id toolName input :: rest) v st =
        (Returned (true,
                   {| steps := steps v ++ [tool_use_step toolName input;
                                           tool_result_step (not_found toolName)];
                      messages := messages v ++ tool_messages response id (not_found toolName) |}),
         st')).
Proof.
  intros Hall st'.
  assert (He : executeTool toolName input st = (Returned (not_found toolName), st')).
  { unfold executeTool, bind, get_this. apply executeTool_loop_all_reject. exact Hall. }
  split; [| split; [| split; [| split]]].
  - exact He.
  - reflexivity.
  - apply not_found_has_name.
  - apply not_found_says_so.
  - intros response id rest v. apply forContent_tool_use. exact He.
Qed.

Lemma executeTool_not_found_witness :
  all_reject (log sample_state) (servers (this sample_state)) "frobnicate" (JObj [])
  /\ @executeTool sampleP "frobnicate" (JObj []) sample_state =
     (Returned "Tool 'frobnicate' not found in any server.",
      {| this := this sample_state;
         log := [CallToolRequest "math-server" "frobnicate" (JObj [])] |}).
Proof.
  assert (H : all_reject (log sample_state) (servers (this sample_state))
                         "frobnicate" (JObj [])).
  { simpl. split; [| exact I].
    exists (McpError MethodNotFound "Unknown tool: frobnicate"). reflexivity. }
  split; [exact H |].
  exact (proj1 (executeTool_not_found (P := sampleP) "frobnicate" (JObj []) sample_state H)).
Defined.

(** C6: [executeTool] asks the registered servers one after the other, in
    registration order; a server that rejects the call is passed over, the
    first server that answers determines the result, and the servers after
    it are not asked. *)
Theorem executeTool_first_success {P : Platform} (toolName : string) (input : json)
  (st : State) (pre : list (string * ServerConnection)) (sn : string) (c : ServerConnection)
  (post : list (string * ServerConnection)) (result : CallToolResult) :
  servers (this st) = (pre ++ (sn, c) :: post)%list ->
  all_reject (log st) pre toolName input ->
  tools_call (client c) (log st ++ map (request_of toolName input) pre) toolName input
  = Ok result ->
  executeTool toolName input st =
  (Returned (normalizeContent (content result)),
   {| this := this st;
      log := log st ++ map (request_of toolName input) (pre ++ [(sn, c)]) |}).
Proof.
  intros Hs Hpre Hok. unfold executeTool, bind, get_this. rewrite Hs.
  apply executeTool_loop_first_success; assumption.
Qed.

Lemma executeTool_first_success_witness :
  @executeTool sampleP "multiply" a15_b32 three_servers =
  (Returned ("15 " ++ TIMES ++ " 32 = 480"),
   {| this := this three_servers;
      log := [CallToolRequest "broken" "multiply" a15_b32;
              CallToolRequest "math-server" "multiply" a15_b32] |}).
Proof.
  refine (executeTool_first_success (P := sampleP) "multiply" a15_b32 three_servers
            [("broken", broken_connection)] "math-server" math_connection
            [("backup", math_connection)]
            {| content := Some (ContentItems [text_item ("15 " ++ TIMES ++ " 32 = 480")]) |}
            eq_refl _ _).
  - simpl. split; [| exact I]. exists (Error "Connection closed"). reflexivity.
  - vm_compute. reflexivity.
Defined.

(** ** The Conversation Driver *)

(** C9: with an empty tool list, as before a successful
    [connectToServers], [processQuery] throws "No tools available" and
    leaves the state as it was: no call of the reasoning model is made
    and no Step is produced. *)
Theorem processQuery_no_tools {P : Platform} (h : Host) (fuel : nat) (query : string)
  (st : State) :
  availableTools (this st) = [] ->
  processQuery h fuel query st
  = (Thrown (Error "No tools available. Please call connectToServers() first."), st)
  /\ model_calls (log (snd (processQuery h fuel query st))) = model_calls (log st).
Proof.
  intros Hempty.
  assert (Hq : processQuery h fuel query st
               = (Thrown (Error "No tools available. Please call connectToServers() first."),
                  st)).
  { unfold processQuery, bind, get_this. rewrite Hempty. reflexivity. }
  split; [exact Hq |]. rewrite Hq. reflexivity.
Qed.

Lemma processQuery_no_tools_witness :
  availableTools (this initial) = []
  /\ @processQuery sampleP (@text_only_host sampleP) 3 "What is 15 * 32?" initial
     = (Thrown (Error "No tools available. Please call connectToServers() first."), initial).
Proof.
  split; [reflexivity |].
  exact (proj1 (processQuery_no_tools (P := sampleP) (@text_only_host sampleP) 3
                  "What is 15 * 32?" initial eq_refl)).
Defined.

(** A client that has just been constructed has no tools. *)
Lemma new_MCPClient_no_tools (h : Host) (st st1 : State) :
  new_MCPClient h st = (Returned tt, st1) -> availableTools (this st1) = [].
Proof.
  unfold new_MCPClient. destruct (ANTHROPIC_API_KEY h) as [k |]; [| discriminate].
  destruct (is_empty k); [discriminate |]. intros [= <-]. reflexivity.
Qed.

(** C7: when the model's first response consists of text blocks only,
    [processQuery] returns one text Step per block, in the order of the
    blocks, and has called the reasoning model exactly once. *)
Theorem processQuery_text_only {P : Platform} (h : Host) (fuel : nat) (query : string)
  (st : State) (texts : list string) :
  availableTools (this st) <> [] ->
  messages_create h (log st) (create_params (availableTools (this st)) [user_query query])
  = Ok (map Anthropic.TextBlock texts) ->
  let call := MessagesCreate (create_params (availableTools (this st)) [user_query query]) in
  processQuery h (S fuel) query st
  = (Returned (map text_step texts), {| this := this st; log := log st ++ [call] |})
  /\ model_calls (log (snd (processQuery h (S fuel) query st))) = S (model_calls (log st)).
Proof.
  intros Htools Hmodel call.
  assert (Hq : processQuery h (S fuel) query st
               = (Returned (map text_step texts), {| this := this st; log := log st ++ [call] |})).
  { unfold processQuery, bind, get_this.
    destruct (availableTools (this st)) as [| t ts] eqn:Ht; [congruence |].
    unfold anthropic_messages_create, bind, get_this, ask. rewrite Ht, Hmodel. simpl.
    unfold bind at 1.
    rewrite <- (app_nil_r (map Anthropic.TextBlock texts)) at 2.
    rewrite forContent_skip by apply existsb_tool_use_texts.
    simpl. rewrite text_steps_texts. reflexivity. }
  split; [exact Hq |].
  rewrite Hq. simpl. apply model_calls_snoc.
Qed.

Lemma processQuery_text_only_witness :
  @processQuery sampleP (@text_only_host sampleP) 1 "hello" sample_state
  = (Returned [text_step "Hello."; text_step "How can I help?"],
     {| this := this sample_state;
        log := [MessagesCreate (create_params (availableTools (this sample_state))
                                              [user_query "hello"])] |}).
Proof.
  refine (proj1 (processQuery_text_only (P := sampleP) (@text_only_host sampleP) 0 "hello"
                   sample_state
                   ["Hello."; "How can I help?"] _ eq_refl)).
  simpl. discriminate.
Defined.

(** C2: when a response holds a tool-use block, the turn adds the text
    Steps of the blocks before the first tool-use block, then one tool_use
    Step and one tool_result Step for that block; the only requests sent
    are calls of that block's tool, whatever follows it in the response;
    the loop goes on with the next call of the model. *)
Theorem processQuery_first_tool_use_only {P : Platform} (h : Host) (fuel : nat)
  (pre : list Anthropic.ContentBlock) (id toolName : string) (input : json)
  (post : list Anthropic.ContentBlock) (v : Locals) (st : State) :
  existsb is_tool_use pre = false ->
  let response := (pre ++ Anthropic.ToolUseBlock id toolName input :: post)%list in
  exists toolResult n,
    let st' := {| this := this st;
                  log := log st
                         ++ map (request_of toolName input) (firstn n (servers (this st))) |} in
    let v' := {| steps := steps v ++ text_steps pre
                          ++ [tool_use_step toolName input; tool_result_step toolResult];
                 messages := messages v ++ tool_messages response id toolResult |} in
    executeTool toolName input st = (Returned toolResult, st')
    /\ forContent response response v st = (Returned (true, v'), st')
    /\ whileLoop h (S fuel) response v st
       = (response' <- anthropic_messages_create h (messages v') ;;
          whileLoop h fuel response' v') st'.
Proof.
  intros Hpre response.
  destruct (executeTool_returns toolName input st) as (toolResult & n & He).
  exists toolResult, n. intros st' v'.
  assert (Hf : forContent response response v st = (Returned (true, v'), st')).
  { unfold response at 2. rewrite forContent_skip by exact Hpre.
    rewrite (forContent_tool_use toolName input response post id _ st st' toolResult He).
    subst v'. simpl. rewrite <- app_assoc. reflexivity. }
  split; [| split].
  - exact He.
  - exact Hf.
  - change (whileLoop h (S fuel) response v st)
      with (bind (forContent response response v)
                 (fun r => let (usedTool, w) := r in
                           if negb usedTool then ret (steps w)
                           else response' <- anthropic_messages_create h (messages w) ;;
                                whileLoop h fuel response' w) st).
    unfold bind at 1. rewrite Hf. reflexivity.
Qed.

Lemma processQuery_first_tool_use_only_witness :
  existsb is_tool_use [Anthropic.TextBlock "Let me calculate."] = false
  /\ exists toolResult n,
       @forContent sampleP two_tool_response two_tool_response
         {| steps := []; messages := [user_query "What is 15 * 32?"] |} sample_state
       = (Returned
            (true,
             {| steps := [text_step "Let me calculate.";
                          @tool_use_step sampleP "multiply" a15_b32;
                          tool_result_step toolResult];
                messages := user_query "What is 15 * 32?"
                            :: tool_messages two_tool_response "toolu_1" toolResult |}),
          {| this := this sample_state;
             log := map (request_of "multiply" a15_b32)
                        (firstn n (servers (this sample_state))) |}).
Proof.
  split; [reflexivity |].
  destruct (processQuery_first_tool_use_only (P := sampleP) (@text_only_host sampleP) 1
              [Anthropic.TextBlock "Let me calculate."] "toolu_1" "multiply" a15_b32
              [Anthropic.TextBlock "and also"; Anthropic.ToolUseBlock "toolu_2" "factorial" n171]
              {| steps := []; messages := [user_query "What is 15 * 32?"] |} sample_state
              eq_refl)
    as (toolResult & n & _ & Hturn & _).
  exists toolResult, n. exact Hturn.
Defined.

(** ** Numbers *)

Lemma SFcompare_antisym (x y : spec_float) :
  SFcompare y x = option_map CompOpp (SFcompare x y).
Proof.
  destruct x as [s1 | s1 | | s1 m1 e1], y as [s2 | s2 | | s2 m2 e2]; simpl;
    try reflexivity;
    try (destruct s1; reflexivity);
    try (destruct s2; reflexivity);
    try (destruct s1, s2; reflexivity).
  rewrite (Z.compare_antisym e1 e2).
  destruct s1, s2; simpl; try reflexivity;
    destruct (e1 ?= e2)%Z; simpl; try reflexivity.
  - do 2 f_equal. exact (eq_sym (Pos.compare_cont_antisym m1 m2 Eq)).
  - f_equal. exact (eq_sym (Pos.compare_cont_antisym m1 m2 Eq)).
Qed.

Lemma SFcompare_refl (x y : spec_float) (c : comparison) :
  SFcompare x y = Some c -> SFcompare x x = Some Eq /\ SFcompare y y = Some Eq.
Proof.
  assert (R : forall s m e, SFcompare (S754_finite s m e) (S754_finite s m e) = Some Eq).
  { intros s m e. simpl. rewrite Z.compare_refl.
    change (PosDef.Pos.compare_cont Eq m m) with (Pos.compare_cont Eq m m).
    rewrite Pos.compare_cont_refl. destruct s; reflexivity. }
  destruct x as [s1 | s1 | | s1 m1 e1], y as [s2 | s2 | | s2 m2 e2];
    intros H; try discriminate H; split;
    try apply R; try reflexivity;
    try (destruct s1; reflexivity); try (destruct s2; reflexivity).
Qed.

(** [a <= b] excludes [b < a] and NaN on either side. *)
Lemma leb_facts (a b : float) :
  PrimFloat.leb a b = true ->
  PrimFloat.ltb b a = false /\ Number_isNaN a = false /\ Number_isNaN b = false.
Proof.
  rewrite leb_spec, ltb_spec. unfold Number_isNaN, PrimFloat.is_nan.
  rewrite !eqb_spec. unfold SFleb, SFltb, SFeqb.
  rewrite (SFcompare_antisym (Prim2SF a) (Prim2SF b)).
  destruct (SFcompare (Prim2SF a) (Prim2SF b)) as [c |] eqn:Hc; [| discriminate].
  destruct (SFcompare_refl _ _ _ Hc) as [Ha Hb]. rewrite Ha, Hb.
  destruct c; simpl; intros H; try discriminate H; auto.
Qed.

Lemma Number_toString_10 {P : Platform} : Number_toString 10%float = "10".
Proof. vm_compute. reflexivity. Qed.

(** ** The math tool server *)

(** C10: the random tool is deterministic.  When min and max, each given
    as a number or left out (defaults 0 and 100), satisfy min <= max, the
    result is the single text item
    "Random number between <min> and <max>: 10". *)
Theorem random_always_10 {P : Platform} (args : option json) (min max : float) :
  nullish (opt_get args "min") (JNum 0%float) = JNum min ->
  nullish (opt_get args "max") (JNum 100%float) = JNum max ->
  PrimFloat.leb min max = true ->
  CallTool_handler "random" args =
  text_result ("Random number between " ++ Number_toString min ++ " and "
                 ++ Number_toString max ++ ": 10").
Proof.
  intros Hmin Hmax Hle.
  destruct (leb_facts min max Hle) as (Hgt & Hnmin & Hnmax).
  unfold CallTool_handler, CallTool_switch. simpl.
  unfold tool_random. rewrite Hmin, Hmax. unfold validateNumber.
  rewrite Hnmin, Hnmax. simpl. rewrite Hgt, Number_toString_10. reflexivity.
Qed.

Lemma random_always_10_witness :
  @CallTool_handler sampleP "random" (Some (JObj [("max", JNum 6%float)]))
  = text_result "Random number between 0 and 6: 10".
Proof.
  exact (random_always_10 (P := sampleP) (Some (JObj [("max", JNum 6%float)]))
           0%float 6%float eq_refl eq_refl eq_refl).
Defined.

(** C3 (as the code behaves): the math server rejects factorial(171) with
    the InvalidParams error "Number too large (would exceed precision)";
    [executeTool] swallows that error and, the math server being the only
    one, returns the not-found string, which becomes the tool_result Step.
    Nothing is thrown and no number is computed. *)
Theorem factorial_171_not_found {P : Platform} (tools : list Anthropic.Tool) (l : list event) :
  let st := {| this := {| servers := [("math-server", math_connection)];
                          availableTools := tools |};
               log := l |} in
  let st' := {| this := this st;
                log := l ++ [CallToolRequest "math-server" "factorial" n171] |} in
  CallTool_handler "factorial" (Some n171)
  = Fail (McpError InvalidParams "Number too large (would exceed precision)")
  /\ executeTool "factorial" n171 st
     = (Returned "Tool 'factorial' not found in any server.", st')
  /\ (forall response id rest v,
        forContent response (Anthropic.ToolUseBlock id "factorial" n171 :: rest) v st
        = (Returned (true,
                     {| steps := steps v
                                 ++ [tool_use_step "factorial" n171;
                                     tool_result_step "Tool 'factorial' not found in any server."];
                        messages := messages v
                                    ++ tool_messages response id
                                         "Tool 'factorial' not found in any server." |}),
           st')).
Proof.
  intros st st'.
  assert (Hh : CallTool_handler "factorial" (Some n171)
               = Fail (McpError InvalidParams "Number too large (would exceed precision)")).
  { vm_compute. reflexivity. }
  assert (He : executeTool "factorial" n171 st
               = (Returned "Tool 'factorial' not found in any server.", st')).
  { unfold executeTool, bind, get_this.
    apply (executeTool_loop_all_reject "factorial" n171 [("math-server", math_connection)]).
    simpl. split; [| exact I]. rewrite Hh. eexists. reflexivity. }
  split; [| split].
  - exact Hh.
  - exact He.
  - intros response id rest v.
    exact (forContent_tool_use "factorial" n171 response rest id v st st' _ He).
Qed.

(** C4 (as the code behaves): absent content gives the fixed string; so
    does the empty string, and any other string is returned as it is; a
    list of items gives, joined by newlines, for each item its text when
    that is a non-empty string (or another truthy value, converted to a
    string) and the item's JSON serialization when the text is missing,
    empty or otherwise falsy. *)
Theorem normalizeContent_cases {P : Platform} :
  normalizeContent None = "Tool executed successfully (no output)."
  /\ (forall s, normalizeContent (Some (ContentString s))
                = if is_empty s then "Tool executed successfully (no output)." else s)
  /\ (forall items, normalizeContent (Some (ContentItems items))
                    = String.concat LF (map item_text items))
  /\ (forall c, item_text c
                = match get "text" c with
                  | Some (JStr s) => if is_empty s then JSON_stringify (JObj c) else s
                  | Some t => if truthy t then ToString t else JSON_stringify (JObj c)
                  | None => JSON_stringify (JObj c)
                  end).
Proof.
  split; [| split; [| split]].
  - reflexivity.
  - intros s. destruct s; reflexivity.
  - intros items. reflexivity.
  - intros c. unfold item_text. destruct (get "text" c) as [[| b | x | s | l | o] |];
      try reflexivity. destruct s; reflexivity.
Qed.

(** ** Discovery *)

Lemma appends_ret {A : Type} (a : A) : appends (ret a).
Proof. intros st. exists []. simpl. now rewrite app_nil_r. Qed.

Lemma appends_throw {A : Type} (e : exn) : appends (@throw A e).
Proof. intros st. exists []. simpl. now rewrite app_nil_r. Qed.

Lemma appends_get_this : appends get_this.
Proof. intros st. exists []. simpl. now rewrite app_nil_r. Qed.

Lemma appends_set_this (c : MCPClient) : appends (set_this c).
Proof. intros st. exists []. simpl. now rewrite app_nil_r. Qed.

Lemma appends_ask {A : Type} (answer : list event -> result A) (e : event) :
  not_close e = true -> appends (ask answer e).
Proof. intros He st. exists [e]. simpl. now rewrite He. Qed.

Lemma appends_bind {A B : Type} (m : M A) (k : A -> M B) :
  appends m -> (forall a, appends (k a)) -> appends (bind m k).
Proof.
  intros Hm Hk st. unfold bind. destruct (Hm st) as (e1 & H1 & F1).
  destruct (m st) as [[a | e |] st1]; simpl in *.
  - destruct (Hk a st1) as (e2 & H2 & F2). exists (e1 ++ e2)%list.
    rewrite H2, H1, app_assoc, forallb_app, F1, F2. auto.
  - exists e1. auto.
  - exists e1. auto.
Qed.

Lemma appends_try_catch {A : Type} (m : M A) (handler : exn -> M A) :
  appends m -> (forall e, appends (handler e)) -> appends (try_catch m handler).
Proof.
  intros Hm Hh st. unfold try_catch. destruct (Hm st) as (e1 & H1 & F1).
  destruct (m st) as [[a | e |] st1]; simpl in *.
  - exists e1. auto.
  - destruct (Hh e st1) as (e2 & H2 & F2). exists (e1 ++ e2)%list.
    rewrite H2, H1, app_assoc, forallb_app, F1, F2. auto.
  - exists e1. auto.
Qed.

Create HintDb appends.
#[local] Hint Resolve appends_ret appends_throw appends_get_this appends_set_this
  appends_ask appends_bind appends_try_catch : appends.

Ltac appends_step :=
  first
    [ apply appends_ret | apply appends_throw | apply appends_get_this
    | apply appends_set_this | apply appends_ask; reflexivity
    | apply appends_bind | apply appends_try_catch
    | match goal with |- forall _, _ => intro end ].

Lemma appends_readConfigJson (h : Host) : appends (readConfigJson h).
Proof. intros st. exists []. simpl. now rewrite app_nil_r. Qed.

Lemma appends_new_MCPClient (h : Host) : appends (new_MCPClient h).
Proof.
  unfold new_MCPClient. destruct (ANTHROPIC_API_KEY h) as [k |];
    [destruct (is_empty k) |]; appends_step.
Qed.

Lemma appends_connectLoop (h : Host) (entries : Config) :
  forall tools, appends (connectLoop h entries tools).
Proof.
  induction entries as [| [sn info] rest IH]; intros tools; simpl.
  - appends_step.
  - repeat appends_step. apply IH.
Qed.

Lemma appends_connectToServers (h : Host) : appends (connectToServers h).
Proof.
  unfold connectToServers. apply appends_bind; [apply appends_readConfigJson |].
  intros cfg. apply appends_bind; [apply appends_connectLoop |]. repeat appends_step.
Qed.

Lemma appends_executeTool {P : Platform} (toolName : string) (input : json) :
  appends (executeTool toolName input).
Proof.
  unfold executeTool. apply appends_bind; [apply appends_get_this |]. intros c.
  induction (servers c) as [| [sn conn] rest IH]; simpl.
  - appends_step.
  - apply appends_try_catch; [repeat appends_step | intros _; exact IH].
Qed.

Lemma appends_anthropic_messages_create (h : Host) (msgs : list Anthropic.MessageParam) :
  appends (anthropic_messages_create h msgs).
Proof. unfold anthropic_messages_create. repeat appends_step. Qed.

Lemma appends_forContent {P : Platform} (response blocks : list Anthropic.ContentBlock) :
  forall v, appends (forContent response blocks v).
Proof.
  induction blocks as [| b blocks IH]; intros v; simpl.
  - appends_step.
  - destruct b as [s | i n x | ty].
    + apply IH.
    + apply appends_bind; [apply appends_executeTool | intros r; appends_step].
    + apply IH.
Qed.

Lemma appends_whileLoop {P : Platform} (h : Host) (fuel : nat) :
  forall response v, appends (whileLoop h fuel response v).
Proof.
  induction fuel as [| fuel IH]; intros response v; simpl.
  - intros st. exists []. simpl. now rewrite app_nil_r.
  - apply appends_bind; [apply appends_forContent |]. intros [usedTool w].
    destruct usedTool; simpl.
    + apply appends_bind; [apply appends_anthropic_messages_create |].
      intros response'. apply IH.
    + appends_step.
Qed.

Lemma appends_processQuery {P : Platform} (h : Host) (fuel : nat) (query : string) :
  appends (processQuery h fuel query).
Proof.
  unfold processQuery. apply appends_bind; [apply appends_get_this |]. intros c.
  destruct (availableTools c); [appends_step |].
  apply appends_bind; [apply appends_anthropic_messages_create |].
  intros response. apply appends_whileLoop.
Qed.

(** Closing the connections never throws. *)
Lemma cleanup_loop_returns (conns : list (string * ServerConnection)) :
  forall st, exists st', cleanup_loop conns st = (Returned tt, st').
Proof.
  induction conns as [| [sn c] rest IH]; intros st; simpl.
  - eexists. reflexivity.
  - unfold bind, try_catch, ask, ret.
    destruct (close (client c) (log st)) as [[] | e]; simpl; apply IH.
Qed.

Lemma cleanup_returns (st : State) : exists st', cleanup st = (Returned tt, st').
Proof.
  unfold cleanup, bind, get_this.
  destruct (cleanup_loop_returns (servers (this st)) st) as [st1 H1]. rewrite H1.
  eexists. reflexivity.
Qed.

(** C8 (as the code behaves): every argument of a server descriptor that
    is not an absolute path, whatever it stands for, is replaced by its
    resolution against the working directory, which is an absolute path;
    an absolute argument is kept as it is.  The working directory is the
    one of the process when the server is connected, and the resolved
    arguments are the ones the server is started with. *)
Theorem resolveArgs_every_relative_argument (cwd : string) (argv : list string) :
  Forall2 (fun arg resolved =>
             resolved = (if path_isAbsolute arg then arg else path_resolve cwd arg)
             /\ path_isAbsolute resolved = true)
          argv (resolveArgs cwd argv)
  /\ (forall h serverName serverInfo rest tools st, exists evs,
        log (snd (connectLoop h ((serverName, serverInfo) :: rest) tools st))
        = (log st
           ++ Connect serverName
                {| command := command serverInfo;
                   args := resolveArgs (process_cwd h) (args serverInfo);
                   env := env serverInfo |}
           :: evs)%list).
Proof.
  split.
  - induction argv as [| arg argv IH]; simpl; constructor; [| exact IH].
    split; [reflexivity |]. destruct (path_isAbsolute arg) eqn:Ha; [exact Ha | reflexivity].
  - intros h serverName serverInfo rest tools st. simpl.
    match goal with
    | |- context [bind ?m ?k] =>
        assert (Hk : forall a, appends (k a))
    end.
    { intros a. repeat appends_step. apply appends_connectLoop. }
    unfold bind at 1. unfold ask at 1.
    destruct (client_connect h (log st) serverName _) as [cl | e]; simpl.
    + match goal with
      | |- context [snd (_ ?s)] => destruct (Hk cl s) as (evs & Hevs & _)
      end.
      exists evs. rewrite Hevs. simpl. rewrite <- app_assoc. reflexivity.
    + exists []. reflexivity.
Qed.

(** A command-line flag is not left alone: it is resolved like a path. *)
Lemma resolveArgs_changes_flag :
  resolveArgs "/app" ["--verbose"] = ["/app/--verbose"]
  /\ resolveArgs "/app" ["--verbose"] <> ["--verbose"].
Proof. split; [reflexivity | discriminate]. Qed.

(** An item whose text is the empty string is serialized, and the empty
    string is reported as missing output; in the specification's wording
    both would give the empty string. *)
Lemma normalizeContent_empty_text :
  @normalizeContent sampleP (Some (ContentItems [text_item EmptyString]))
  = "{" ++ DQUOTE ++ "type" ++ DQUOTE ++ ":" ++ DQUOTE ++ "text" ++ DQUOTE ++ ","
        ++ DQUOTE ++ "text" ++ DQUOTE ++ ":" ++ DQUOTE ++ DQUOTE ++ "}"
  /\ @normalizeContent_spec sampleP (Some (ContentItems [text_item EmptyString])) = EmptyString
  /\ @normalizeContent sampleP (Some (ContentItems [text_item EmptyString]))
     <> @normalizeContent_spec sampleP (Some (ContentItems [text_item EmptyString]))
  /\ @normalizeContent sampleP (Some (ContentString EmptyString))
     <> @normalizeContent_spec sampleP (Some (ContentString EmptyString)).
Proof.
  split; [| split; [| split]].
  - vm_compute. reflexivity.
  - vm_compute. reflexivity.
  - vm_compute. discriminate.
  - vm_compute. discriminate.
Qed.

(** The whole query for factorial(171) against the math server: the trace
    holds the not-found string, in which "too large" does not occur. *)
Lemma factorial_171_outcome :
  fst (@runQuery sampleP (@factorial_host sampleP) 2 "What is 171!?" initial)
  = Returned [ @tool_use_step sampleP "factorial" n171;
               tool_result_step "Tool 'factorial' not found in any server.";
               text_step "I could not compute 171!." ]
  /\ fst (@executeTool sampleP "factorial" n171 sample_state)
     = Returned "Tool 'factorial' not found in any server."
  /\ contains "too large" "Tool 'factorial' not found in any server." = false.
Proof.
  split; [| split]; vm_compute; reflexivity.
Qed.

(** ** The server action *)

Lemma appends_trans (l0 l1 l2 : list event) (e1 e2 : list event) :
  l1 = (l0 ++ e1)%list -> forallb not_close e1 = true ->
  l2 = (l1 ++ e2)%list -> forallb not_close e2 = true ->
  exists evs, l2 = (l0 ++ evs)%list /\ forallb not_close evs = true.
Proof.
  intros -> F1 -> F2. exists (e1 ++ e2)%list.
  rewrite app_assoc, forallb_app, F1, F2. auto.
Qed.

(** C1 fails on [runQuery] as it is written: whenever it throws, be it in
    discovery or in the conversation loop, the log has only grown by
    events that are not [Close]: [cleanup] has not run and no connection
    opened meanwhile has been closed. *)
Theorem runQuery_error_skips_cleanup {P : Platform} (h : Host) (fuel : nat) (query : string)
  (st st' : State) (e : exn) :
  runQuery h fuel query st = (Thrown e, st') ->
  exists evs, log st' = (log st ++ evs)%list /\ forallb not_close evs = true.
Proof.
  unfold runQuery, bind.
  destruct (appends_new_MCPClient h st) as (e1 & H1 & F1).
  destruct (new_MCPClient h st) as [[[] | x1 |] s1]; simpl in H1;
    [| intros [= <- <-]; exists e1; auto | discriminate].
  destruct (appends_connectToServers h s1) as (e2 & H2 & F2).
  destruct (connectToServers h s1) as [[[] | x2 |] s2]; simpl in H2;
    [| intros [= <- <-]; exact (appends_trans _ _ _ _ _ H1 F1 H2 F2) | discriminate].
  destruct (appends_trans _ _ _ _ _ H1 F1 H2 F2) as (e12 & H12 & F12).
  destruct (appends_processQuery h fuel query s2) as (e3 & H3 & F3).
  destruct (processQuery h fuel query s2) as [[r | x3 |] s3]; simpl in H3;
    [| intros [= <- <-]; exact (appends_trans _ _ _ _ _ H12 F12 H3 F3) | discriminate].
  destruct (cleanup_returns s3) as [s4 H4]. rewrite H4. discriminate.
Qed.

Lemma runQuery_error_skips_cleanup_witness :
  fst (@runQuery sampleP (@failing_model_host sampleP) 1 "What is 15 * 32?" initial)
  = Thrown (Error "529 overloaded")
  /\ exists evs,
       log (snd (@runQuery sampleP (@failing_model_host sampleP) 1 "What is 15 * 32?" initial))
       = evs /\ forallb not_close evs = true.
Proof.
  assert (H : fst (@runQuery sampleP (@failing_model_host sampleP) 1 "What is 15 * 32?" initial)
              = Thrown (Error "529 overloaded")).
  { vm_compute. reflexivity. }
  split; [exact H |].
  refine (runQuery_error_skips_cleanup (P := sampleP) (@failing_model_host sampleP) 1
            "What is 15 * 32?" initial _ (Error "529 overloaded") _).
  rewrite <- H. apply surjective_pairing.
Defined.

(** A session in which the call of the model fails: the math server has
    been started and is still registered when the error leaves [runQuery],
    and no [Close] has been sent; with [cleanup] in [finally], as
    documented, the same session ends by closing the connection.  A
    session without error does close it. *)
Lemma runQuery_leaves_math_server_open :
  fst (@runQuery sampleP (@failing_model_host sampleP) 1 "What is 15 * 32?" initial)
  = Thrown (Error "529 overloaded")
  /\ log (snd (@runQuery sampleP (@failing_model_host sampleP) 1 "What is 15 * 32?" initial))
     = [ Connect "math-server" (math_transport "/app");
         ListToolsRequest "math-server";
         MessagesCreate (create_params (map toAnthropicTool ListTools_handler)
                                       [user_query "What is 15 * 32?"]) ]
  /\ map fst (servers (this (snd (@runQuery sampleP (@failing_model_host sampleP) 1
                                   "What is 15 * 32?" initial))))
     = ["math-server"]
  /\ fst (@runQuery_documented sampleP (@failing_model_host sampleP) 1 "What is 15 * 32?" initial)
     = Thrown (Error "529 overloaded")
  /\ log (snd (@runQuery_documented sampleP (@failing_model_host sampleP) 1
                 "What is 15 * 32?" initial))
     = [ Connect "math-server" (math_transport "/app");
         ListToolsRequest "math-server";
         MessagesCreate (create_params (map toAnthropicTool ListTools_handler)
                                       [user_query "What is 15 * 32?"]);
         Close "math-server" ]
  /\ servers (this (snd (@runQuery_documented sampleP (@failing_model_host sampleP) 1
                           "What is 15 * 32?" initial)))
     = []
  /\ filter is_close (log (snd (@runQuery sampleP (@text_only_host sampleP) 1 "hello" initial)))
     = [Close "math-server"].
Proof.
  split; [| split; [| split; [| split; [| split; [| split]]]]]; vm_compute; reflexivity.
Qed.

(** * Further properties *)

(** ** The math tool server, continued *)



(** What [factorial] answers for an argument that passes its checks. *)
Lemma factorial_accepts {P : Platform} (n : float) :
  Number_isNaN n = false ->
  PrimFloat.ltb n 0%float = false ->
  Number_isInteger n = true ->
  PrimFloat.ltb 170%float n = false ->
  CallTool_handler "factorial" (n_arg n)
  = text_result (Number_toString n ++ "! = "
                   ++ Number_toString (factorial_loop 170 2%float n 1%float)).
Proof.
  intros Hnan Hneg Hint Hbig.
  unfold CallTool_handler, CallTool_switch. simpl.
  unfold tool_factorial, n_arg, validateNumber. simpl.
  rewrite Hnan. simpl. rewrite Hneg, Hint, Hbig. reflexivity.
Qed.

(** [factorial] answers only when [n] is given as a number that is an
    integer between 0 and 170; the answer is then the text
    "<n>! = <product>".  A missing or non-numeric [n], a negative or
    fractional one and one above 170 are all rejected. *)
Theorem factorial_answers_only_valid {P : Platform} (args : option json) (r : CallToolResult) :
  CallTool_handler "factorial" args = Ok r ->
  exists n,
    opt_get args "n" = Some (JNum n)
    /\ Number_isNaN n = false
    /\ PrimFloat.ltb n 0%float = false
    /\ Number_isInteger n = true
    /\ PrimFloat.ltb 170%float n = false
    /\ Ok r = text_result (Number_toString n ++ "! = "
                             ++ Number_toString (factorial_loop 170 2%float n 1%float)).
Proof.
  unfold CallTool_handler, CallTool_switch. simpl. unfold tool_factorial, validateNumber.
  destruct (opt_get args "n") as [[| b | n | s | l | o] |]; simpl; try discriminate.
  destruct (Number_isNaN n) eqn:Hnan; simpl; [discriminate |].
  destruct (PrimFloat.ltb n 0%float) eqn:Hneg; simpl; [discriminate |].
  destruct (Number_isInteger n) eqn:Hint; simpl; [| discriminate].
  destruct (PrimFloat.ltb 170%float n) eqn:Hbig; simpl; [discriminate |].
  intros H. exists n.
  split; [reflexivity |]. split; [exact Hnan |]. split; [exact Hneg |].
  split; [exact Hint |]. split; [exact Hbig |]. symmetry. exact H.
Qed.

Lemma factorial_answers_only_valid_witness :
  exists n, opt_get (n_arg 5%float) "n" = Some (JNum n) /\ Number_isInteger n = true.
Proof.
  destruct (factorial_answers_only_valid (P := sampleP) (n_arg 5%float)
              {| content := Some (ContentItems [text_item "5! = 120"]) |} eq_refl)
    as (n & Hn & _ & _ & Hint & _).
  exists n. split; assumption.
Defined.

(** For n = 0, 1, ..., 18 the answer of [factorial] is exact: the text is
    "<n>! = " followed by the decimal digits of n!. *)
Theorem factorial_exact_text {P : Platform} (k : nat) :
  k <= 18 ->
  CallTool_handler "factorial" (n_arg (Number_of_nat k))
  = text_result (decimal (Z.of_nat k) ++ "! = " ++ decimal (factorial_Z k)).
Proof.
  intros Hk.
  do 19 (destruct k as [| k]; [vm_compute; reflexivity |]).
  lia.
Qed.

Lemma factorial_exact_text_witness :
  @CallTool_handler sampleP "factorial" (n_arg (Number_of_nat 10))
  = text_result "10! = 3628800".
Proof.
  exact (factorial_exact_text (P := sampleP) 10 ltac:(lia)).
Defined.

(** For n = 0, ..., 170 [factorial] answers, and the product it prints is
    a finite double, equal to n! as long as n <= 22; the product for 171
    is not finite any more, so that the bound of the check is sharp. *)
Theorem factorial_bound_sharp {P : Platform} (k : nat) :
  k <= 170 ->
  let product := factorial_loop 170 2%float (Number_of_nat k) 1%float in
  CallTool_handler "factorial" (n_arg (Number_of_nat k))
  = text_result (Number_toString (Number_of_nat k) ++ "! = " ++ Number_toString product)
  /\ Number_isFinite product = true
  /\ (k <= 22 -> integer_value product = Some (factorial_Z k))
  /\ Number_isFinite (factorial_loop 170 2%float (Number_of_nat 171) 1%float) = false.
Proof.
  intros Hk product.
  pose (check := fun k : nat =>
    let n := Number_of_nat k in
    let p := factorial_loop 170 2%float n 1%float in
    negb (Number_isNaN n) && negb (PrimFloat.ltb n 0%float) && Number_isInteger n
    && negb (PrimFloat.ltb 170%float n) && Number_isFinite p
    && (negb (Nat.leb k 22)
        || match integer_value p with
           | Some z => Z.eqb z (factorial_Z k)
           | None => false
           end)).
  assert (Hall : forallb check (seq 0 171) = true) by (vm_compute; reflexivity).
  assert (Hc : check k = true).
  { apply (proj1 (forallb_forall check (seq 0 171)) Hall). apply in_seq. lia. }
  unfold check in Hc. fold product in Hc.
  repeat (apply andb_prop in Hc; destruct Hc as [Hc ?]).
  repeat match goal with H : negb _ = true |- _ => apply negb_true_iff in H end.
  split; [| split; [| split]].
  - apply factorial_accepts; assumption.
  - assumption.
  - intros H22.
    match goal with H : (_ || _)%bool = true |- _ => apply orb_prop in H; destruct H as [H | H] end.
    + apply negb_true_iff, Nat.leb_gt in H. lia.
    + destruct (integer_value product) as [z |]; [| discriminate].
      apply Z.eqb_eq in H. now subst z.
  - vm_compute. reflexivity.
Qed.

Lemma factorial_bound_sharp_witness :
  Number_isFinite (factorial_loop 170 2%float (Number_of_nat 170) 1%float) = true.
Proof.
  exact (proj1 (proj2 (factorial_bound_sharp (P := sampleP) 170 (le_n 170)))).
Defined.

(** [fibonacci] answers only when [n] is given as a number that is an
    integer between 0 and 78. *)
Theorem fibonacci_answers_only_valid {P : Platform} (args : option json) (r : CallToolResult) :
  CallTool_handler "fibonacci" args = Ok r ->
  exists n,
    opt_get args "n" = Some (JNum n)
    /\ Number_isNaN n = false
    /\ PrimFloat.ltb n 0%float = false
    /\ Number_isInteger n = true
    /\ PrimFloat.ltb 78%float n = false.
Proof.
  unfold CallTool_handler.
  change (CallTool_switch "fibonacci" args) with (tool_fibonacci args).
  unfold tool_fibonacci, validateNumber, bindR.
  destruct (opt_get args "n") as [[| b | n | s | l | o] |]; cbv beta iota;
    try discriminate.
  destruct (Number_isNaN n) eqn:Hnan; cbv beta iota; [discriminate |].
  destruct (PrimFloat.ltb n 0%float) eqn:Hneg; cbv beta iota delta [orb negb];
    [discriminate |].
  destruct (Number_isInteger n) eqn:Hint; cbv beta iota; [| discriminate].
  destruct (PrimFloat.ltb 78%float n) eqn:Hbig; cbv beta iota; [discriminate |].
  intros _. exists n.
  split; [reflexivity |]. split; [exact Hnan |]. split; [exact Hneg |].
  split; [exact Hint | exact Hbig].
Qed.

Lemma fibonacci_answers_only_valid_witness :
  exists n, opt_get (n_arg 10%float) "n" = Some (JNum n) /\ PrimFloat.ltb 78%float n = false.
Proof.
  destruct (fibonacci_answers_only_valid (P := sampleP) (n_arg 10%float)
              {| content := Some (ContentItems [text_item "Fibonacci(10) = 55"]) |} eq_refl)
    as (n & Hn & _ & _ & _ & Hbig).
  exists n. split; assumption.
Defined.

(** On its whole range, n = 0, ..., 78, [fibonacci] is exact: the text is
    "Fibonacci(<n>) = " followed by the decimal digits of the n-th
    Fibonacci number. *)
Theorem fibonacci_exact {P : Platform} (k : nat) :
  k <= 78 ->
  CallTool_handler "fibonacci" (n_arg (Number_of_nat k))
  = text_result ("Fibonacci(" ++ decimal (Z.of_nat k) ++ ") = " ++ decimal (fibonacci_Z k)).
Proof.
  intros Hk.
  do 79 (destruct k as [| k]; [vm_compute; reflexivity |]).
  lia.
Qed.

Lemma fibonacci_exact_witness :
  @CallTool_handler sampleP "fibonacci" (n_arg (Number_of_nat 78))
  = text_result "Fibonacci(78) = 8944394323791464".
Proof.
  exact (fibonacci_exact (P := sampleP) 78 (le_n 78)).
Defined.

(** [add] and [multiply] check [a] before [b] and report the first operand
    that is not a valid number; with two valid numbers they answer. *)
Theorem add_multiply_validation {P : Platform} (args : option json) :
  (valid_number (opt_get args "a") = false ->
   CallTool_handler "add" args = Fail (McpError InvalidParams "a must be a valid number")
   /\ CallTool_handler "multiply" args
      = Fail (McpError InvalidParams "a must be a valid number"))
  /\ (valid_number (opt_get args "a") = true -> valid_number (opt_get args "b") = false ->
      CallTool_handler "add" args = Fail (McpError InvalidParams "b must be a valid number")
      /\ CallTool_handler "multiply" args
         = Fail (McpError InvalidParams "b must be a valid number"))
  /\ (valid_number (opt_get args "a") = true -> valid_number (opt_get args "b") = true ->
      exists a b,
        opt_get args "a" = Some (JNum a) /\ opt_get args "b" = Some (JNum b)
        /\ CallTool_handler "add" args
           = text_result (Number_toString a ++ " + " ++ Number_toString b ++ " = "
                            ++ Number_toString (a + b)%float)
        /\ CallTool_handler "multiply" args
           = text_result (Number_toString a ++ " " ++ TIMES ++ " " ++ Number_toString b
                            ++ " = " ++ Number_toString (a * b)%float)).
Proof.
  unfold CallTool_handler, CallTool_switch. simpl.
  unfold tool_add, tool_multiply, validateNumber, valid_number.
  split; [| split].
  - destruct (opt_get args "a") as [[| ? | a | ? | ? | ?] |]; simpl;
      try (intros _; split; reflexivity).
    destruct (Number_isNaN a); simpl; [intros _; split; reflexivity | discriminate].
  - destruct (opt_get args "a") as [[| ? | a | ? | ? | ?] |]; simpl; try discriminate.
    destruct (Number_isNaN a); simpl; [discriminate |]. intros _.
    destruct (opt_get args "b") as [[| ? | b | ? | ? | ?] |]; simpl;
      try (intros _; split; reflexivity).
    destruct (Number_isNaN b); simpl; [intros _; split; reflexivity | discriminate].
  - destruct (opt_get args "a") as [[| ? | a | ? | ? | ?] |]; simpl; try discriminate.
    destruct (Number_isNaN a); simpl; [discriminate |]. intros _.
    destruct (opt_get args "b") as [[| ? | b | ? | ? | ?] |]; simpl; try discriminate.
    destruct (Number_isNaN b); simpl; [discriminate |]. intros _.
    exists a, b. repeat split; reflexivity.
Qed.

Lemma add_multiply_validation_witness :
  @CallTool_handler sampleP "multiply" (Some (JObj [("b", JNum 32%float)]))
  = Fail (McpError InvalidParams "a must be a valid number").
Proof.
  exact (proj2 (proj1 (add_multiply_validation (P := sampleP)
                         (Some (JObj [("b", JNum 32%float)]))) eq_refl)).
Defined.

(** ** The MCP client, continued *)

Lemma cleanup_loop_effect (conns : list (string * ServerConnection)) :
  forall st,
    cleanup_loop conns st
    = (Returned tt, {| this := this st; log := log st ++ closes conns |}).
Proof.
  induction conns as [| [sn c] rest IH]; intros st; simpl.
  - unfold ret. rewrite app_nil_r. destruct st; reflexivity.
  - unfold bind, try_catch, ask, ret.
    destruct (close (client c) (log st)) as [[] | e]; simpl;
      rewrite IH; simpl; rewrite <- app_assoc; reflexivity.
Qed.

Lemma cleanup_effect (st : State) :
  cleanup st
  = (Returned tt,
     {| this := empty_client; log := log st ++ closes (servers (this st)) |}).
Proof.
  unfold cleanup, bind, get_this. rewrite cleanup_loop_effect. reflexivity.
Qed.

(** [cleanup] never throws, not even when a server refuses to close: it
    sends one [Close] to every registered connection, in registration
    order, and leaves the client without servers and without tools. *)
Theorem cleanup_closes_everything (st : State) :
  cleanup st
  = (Returned tt,
     {| this := empty_client; log := log st ++ closes (servers (this st)) |})
  /\ length (filter is_close (log (snd (cleanup st))))
     = length (filter is_close (log st)) + length (servers (this st)).
Proof.
  split; [apply cleanup_effect |].
  rewrite cleanup_effect. simpl. rewrite filter_app, length_app. f_equal.
  unfold closes. induction (servers (this st)) as [| c conns IH]; simpl; [reflexivity |].
  now rewrite IH.
Qed.

(** After [cleanup] the client is inert: a second [cleanup] sends nothing,
    [processQuery] throws "No tools available" and [executeTool] reports
    the tool as not found, each without contacting anyone. *)
Theorem after_cleanup {P : Platform} (h : Host) (fuel : nat) (query toolName : string)
  (input : json) (st : State) :
  let st1 := snd (cleanup st) in
  cleanup st1 = (Returned tt, st1)
  /\ processQuery h fuel query st1
     = (Thrown (Error "No tools available. Please call connectToServers() first."), st1)
  /\ executeTool toolName input st1 = (Returned (not_found toolName), st1).
Proof.
  rewrite cleanup_effect. simpl. split; [| split].
  - rewrite cleanup_effect. simpl. rewrite app_nil_r. reflexivity.
  - reflexivity.
  - unfold executeTool, bind, get_this. simpl. reflexivity.
Qed.

(** [executeTool] never throws and never changes the client; it sends at
    most one request to each registered server, in registration order. *)
Theorem executeTool_never_throws {P : Platform} (toolName : string) (input : json)
  (st : State) :
  exists toolResult n,
    n <= length (servers (this st))
    /\ executeTool toolName input st
       = (Returned toolResult,
          {| this := this st;
             log := log st
                    ++ map (request_of toolName input) (firstn n (servers (this st))) |}).
Proof.
  destruct (executeTool_returns toolName input st) as (r & n & H).
  destruct (Nat.le_gt_cases n (length (servers (this st)))) as [Hle | Hgt].
  - exists r, n. split; [exact Hle | exact H].
  - exists r, (length (servers (this st))). split; [apply Nat.le_refl |].
    rewrite H. rewrite firstn_all, firstn_all2 by lia. reflexivity.
Qed.

Lemma executeTool_loop_cons {P : Platform} (toolName : string) (input : json) (sn : string)
  (c : ServerConnection) (rest : list (string * ServerConnection)) (st : State) :
  executeTool_loop ((sn, c) :: rest) toolName input st
  = let st1 := {| this := this st; log := log st ++ [CallToolRequest sn toolName input] |} in
    match tools_call (client c) (log st) toolName input with
    | Ok result => (Returned (normalizeContent (content result)), st1)
    | Fail _ => executeTool_loop rest toolName input st1
    end.
Proof.
  simpl. unfold try_catch, bind, ask.
  destruct (tools_call (client c) (log st) toolName input); reflexivity.
Qed.

(** Against the math server alone, [executeTool] returns the normalized
    content of what the handler answers, and the not-found string for
    everything the handler rejects; exactly one request is sent. *)
Theorem executeTool_math_server {P : Platform} (toolName : string) (input : json)
  (tools : list Anthropic.Tool) (l : list event) :
  let st := {| this := {| servers := [("math-server", math_connection)];
                          availableTools := tools |};
               log := l |} in
  executeTool toolName input st
  = (Returned match CallTool_handler toolName (Some input) with
              | Ok result => normalizeContent (content result)
              | Fail _ => not_found toolName
              end,
     {| this := this st; log := l ++ [CallToolRequest "math-server" toolName input] |}).
Proof.
  intros st. unfold executeTool, bind, get_this.
  change (servers (this st)) with [("math-server", math_connection)].
  rewrite executeTool_loop_cons.
  change (tools_call (client math_connection) (log st) toolName input)
    with (CallTool_handler toolName (Some input)).
  destruct (CallTool_handler toolName (Some input)); reflexivity.
Qed.

Lemma item_text_text_item {P : Platform} (t : string) :
  t <> EmptyString -> item_text (text_item t) = t.
Proof.
  intros Ht. unfold item_text, text_item. simpl.
  destruct t as [| c t]; [congruence | reflexivity].
Qed.

(** For a result whose items all carry a non-empty text, as every answer
    of the math server does, the normalized content is the texts joined
    by newlines. *)
Theorem normalizeContent_texts {P : Platform} (texts : list string) :
  Forall (fun t => t <> EmptyString) texts ->
  normalizeContent (Some (ContentItems (map text_item texts))) = String.concat LF texts.
Proof.
  intros Hall. unfold normalizeContent. simpl. f_equal.
  induction Hall as [| t texts Ht _ IH]; simpl; [reflexivity |].
  rewrite item_text_text_item by exact Ht. now rewrite IH.
Qed.

Lemma normalizeContent_texts_witness :
  @normalizeContent sampleP (Some (ContentItems [text_item "15 + 32 = 47"; text_item "done"]))
  = "15 + 32 = 47" ++ LF ++ "done".
Proof.
  refine (normalizeContent_texts (P := sampleP) ["15 + 32 = 47"; "done"] _).
  repeat constructor; discriminate.
Defined.

(** ** Discovery, continued *)

Lemma path_isAbsolute_resolved (cwd arg : string) :
  path_isAbsolute (if path_isAbsolute arg then arg else path_resolve cwd arg) = true.
Proof. destruct (path_isAbsolute arg) eqn:Ha; [exact Ha | reflexivity]. Qed.

(** Resolved arguments are stable: resolving them again, from whatever
    directory, changes nothing; and resolution keeps the number of
    arguments. *)
Theorem resolveArgs_idempotent (cwd cwd' : string) (argv : list string) :
  resolveArgs cwd' (resolveArgs cwd argv) = resolveArgs cwd argv
  /\ length (resolveArgs cwd argv) = length argv.
Proof.
  unfold resolveArgs. split; [| apply length_map].
  rewrite map_map. apply map_ext. intros arg.
  now rewrite path_isAbsolute_resolved.
Qed.










(** ** The Conversation Driver, continued *)

Lemma model_calls_app (l1 l2 : list event) :
  model_calls (l1 ++ l2) = model_calls l1 + model_calls l2.
Proof. unfold model_calls. now rewrite filter_app, length_app. Qed.

Lemma model_calls_requests (toolName : string) (input : json)
  (conns : list (string * ServerConnection)) :
  model_calls (map (request_of toolName input) conns) = 0.
Proof. induction conns as [| c conns IH]; [reflexivity | exact IH]. Qed.

Lemma count_type_app (k : Step.kind) (l1 l2 : list Step.t) :
  count_type k (l1 ++ l2) = count_type k l1 + count_type k l2.
Proof. unfold count_type. now rewrite filter_app, length_app. Qed.

Lemma count_type_text_steps (k : Step.kind) (blocks : list Anthropic.ContentBlock) :
  k <> Step.text -> count_type k (text_steps blocks) = 0.
Proof.
  intros Hk. induction blocks as [| [s | i n x | ty] blocks IH]; simpl; try exact IH.
  - reflexivity.
  - unfold count_type in *. simpl. destruct k; simpl; [congruence | exact IH | exact IH].
Qed.

Lemma well_paired_text_steps (blocks : list Anthropic.ContentBlock) (l : list Step.t) :
  well_paired (text_steps blocks ++ l) = well_paired l.
Proof.
  induction blocks as [| [s | i n x | ty] blocks IH]; simpl; auto.
Qed.

Lemma well_paired_app (l1 l2 : list Step.t) :
  well_paired l1 = true -> well_paired (l1 ++ l2) = well_paired l2.
Proof.
  assert (H : forall n l, length l <= n -> well_paired l = true ->
                          well_paired (l ++ l2) = well_paired l2).
  { induction n as [| n IH]; intros l Hlen Hwp.
    - destruct l; [reflexivity | simpl in Hlen; lia].
    - destruct l as [| s l]; [reflexivity |]. simpl in *.
      destruct (Step.type s).
      + apply IH; [lia | exact Hwp].
      + destruct l as [| r l]; [discriminate |]. simpl in *.
        apply andb_prop in Hwp. destruct Hwp as [Hr Hwp]. rewrite Hr. simpl.
        apply IH; [lia | exact Hwp].
      + discriminate. }
  apply (H (length l1)). apply Nat.le_refl.
Qed.

(** A turn whose response holds no tool-use block. *)
Lemma turn_without_tool_use {P : Platform} (response : list Anthropic.ContentBlock)
  (v : Locals) (st : State) :
  existsb is_tool_use response = false ->
  forContent response response v st
  = (Returned (false, {| steps := steps v ++ text_steps response; messages := messages v |}),
     st).
Proof.
  intros H. pose proof (forContent_skip response response [] H v st) as Hs.
  rewrite app_nil_r in Hs. exact Hs.
Qed.

(** A turn whose response holds a tool-use block. *)
Lemma turn_with_tool_use {P : Platform} (response : list Anthropic.ContentBlock)
  (v : Locals) (st : State) :
  existsb is_tool_use response = true ->
  exists pre id toolName input post toolResult n,
    response = (pre ++ Anthropic.ToolUseBlock id toolName input :: post)%list
    /\ existsb is_tool_use pre = false
    /\ forContent response response v st
       = (Returned (true,
                    {| steps := steps v ++ text_steps pre
                                ++ [tool_use_step toolName input; tool_result_step toolResult];
                       messages := messages v ++ tool_messages response id toolResult |}),
          {| this := this st;
             log := log st
                    ++ map (request_of toolName input) (firstn n (servers (this st))) |}).
Proof.
  intros H.
  destruct (first_tool_use_split response H) as (pre & id & tn & inp & post & Hr & Hpre).
  destruct (executeTool_returns tn inp st) as (r & n & He).
  exists pre, id, tn, inp, post, r, n. split; [exact Hr |]. split; [exact Hpre |].
  rewrite Hr at 2. rewrite forContent_skip by exact Hpre.
  rewrite (forContent_tool_use tn inp response post id _ st _ r He).
  simpl. rewrite <- app_assoc. reflexivity.
Qed.

Lemma whileLoop_S {P : Platform} (h : Host) (fuel : nat)
  (response : list Anthropic.ContentBlock) (v : Locals) (st : State) :
  whileLoop h (S fuel) response v st
  = match forContent response response v st with
    | (Returned (usedTool, v'), st') =>
        if negb usedTool then (Returned (steps v'), st')
        else
          match anthropic_messages_create h (messages v') st' with
          | (Returned response', st'') => whileLoop h fuel response' v' st''
          | (Thrown e, st'') => (Thrown e, st'')
          | (OutOfFuel, st'') => (OutOfFuel, st'')
          end
    | (Thrown e, st') => (Thrown e, st')
    | (OutOfFuel, st') => (OutOfFuel, st')
    end.
Proof.
  simpl. unfold bind at 1.
  destruct (forContent response response v st) as [[[usedTool v'] | e |] st']; try reflexivity.
  destruct usedTool; reflexivity.
Qed.

Lemma anthropic_messages_create_eq (h : Host) (msgs : list Anthropic.MessageParam)
  (st : State) :
  anthropic_messages_create h msgs st
  = (of_result (messages_create h (log st) (create_params (availableTools (this st)) msgs)),
     {| this := this st;
        log := log st ++ [MessagesCreate (create_params (availableTools (this st)) msgs)] |}).
Proof. reflexivity. Qed.

(** What the loop has done when it returns. *)
Lemma whileLoop_returned {P : Platform} (h : Host) (fuel : nat) :
  forall response v st result st',
    whileLoop h fuel response v st = (Returned result, st') ->
    this st' = this st
    /\ (well_paired (steps v) = true -> well_paired result = true)
    /\ count_type Step.tool_use result + model_calls (log st)
       = count_type Step.tool_use (steps v) + model_calls (log st')
    /\ count_type Step.tool_result result + model_calls (log st)
       = count_type Step.tool_result (steps v) + model_calls (log st').
Proof.
  induction fuel as [| fuel IH]; intros response v st result st'; [discriminate |].
  rewrite whileLoop_S.
  destruct (existsb is_tool_use response) eqn:Hu.
  - destruct (turn_with_tool_use response v st Hu)
      as (pre & id & tn & inp & post & r & n & _ & _ & Hturn).
    rewrite Hturn. simpl negb. cbv iota. rewrite anthropic_messages_create_eq.
    destruct (messages_create h _ _) as [response' | e]; simpl of_result; cbv iota;
      [| discriminate].
    intros Hrec. apply IH in Hrec. simpl in Hrec.
    destruct Hrec as (Hthis & Hwp & Hu1 & Hr1).
    rewrite model_calls_snoc, model_calls_app, model_calls_requests in Hu1, Hr1.
    rewrite !count_type_app in Hu1, Hr1.
    rewrite count_type_text_steps in Hu1, Hr1 by discriminate.
    unfold count_type in Hu1 at 3. unfold count_type in Hr1 at 3. simpl in Hu1, Hr1.
    split; [exact Hthis |]. split; [| split; lia].
    intros Hv. apply Hwp. rewrite well_paired_app by exact Hv.
    rewrite well_paired_text_steps. reflexivity.
  - rewrite (turn_without_tool_use response v st Hu). simpl.
    intros [= <- <-]. split; [reflexivity |].
    rewrite !count_type_app, !count_type_text_steps by discriminate.
    split; [| split; lia].
    intros Hv. rewrite well_paired_app by exact Hv.
    rewrite <- (app_nil_r (text_steps response)). apply well_paired_text_steps.
Qed.

(** When [processQuery] returns, every tool_use Step of the trace is
    directly followed by its tool_result Step and there is no other
    tool_result Step; the reasoning model has been called once more than
    there are tool_use Steps; and the client is as it was. *)
Theorem processQuery_trace_invariant {P : Platform} (h : Host) (fuel : nat) (query : string)
  (st st' : State) (result : list Step.t) :
  processQuery h fuel query st = (Returned result, st') ->
  well_paired result = true
  /\ count_type Step.tool_result result = count_type Step.tool_use result
  /\ model_calls (log st') = model_calls (log st) + S (count_type Step.tool_use result)
  /\ this st' = this st.
Proof.
  unfold processQuery, bind, get_this.
  destruct (availableTools (this st)) as [| t ts] eqn:Ht; [discriminate |].
  rewrite anthropic_messages_create_eq.
  destruct (messages_create h _ _) as [response | e]; simpl; [| discriminate].
  intros Hloop. apply whileLoop_returned in Hloop. simpl in Hloop.
  destruct Hloop as (Hthis & Hwp & Hu & Hr).
  rewrite model_calls_snoc in Hu, Hr.
  change (count_type Step.tool_use []) with 0 in Hu.
  change (count_type Step.tool_result []) with 0 in Hr.
  split; [apply Hwp; reflexivity |]. split; [lia |]. split; [lia | exact Hthis].
Qed.

Lemma processQuery_trace_invariant_witness :
  fst (@processQuery sampleP (@factorial_host sampleP) 2 "What is 171!?" sample_state)
  = Returned [ @tool_use_step sampleP "factorial" n171;
               tool_result_step "Tool 'factorial' not found in any server.";
               text_step "I could not compute 171!." ]
  /\ well_paired [ @tool_use_step sampleP "factorial" n171;
                   tool_result_step "Tool 'factorial' not found in any server.";
                   text_step "I could not compute 171!." ] = true.
Proof.
  assert (H : fst (@processQuery sampleP (@factorial_host sampleP) 2 "What is 171!?"
                     sample_state)
              = Returned [ @tool_use_step sampleP "factorial" n171;
                           tool_result_step "Tool 'factorial' not found in any server.";
                           text_step "I could not compute 171!." ])
    by (vm_compute; reflexivity).
  split; [exact H |].
  refine (proj1 (processQuery_trace_invariant (P := sampleP) (@factorial_host sampleP) 2
                   "What is 171!?" sample_state _ _ _)).
  rewrite <- H. apply surjective_pairing.
Defined.

(** The loop has no bound of its own: against a model that asks for a
    tool in every response it does not return, however many turns it is
    given, and each further turn is one more call of the model. *)
Theorem processQuery_unbounded {P : Platform} (h : Host) (fuel : nat) (query : string)
  (st : State) :
  (forall l params, exists blocks,
      messages_create h l params = Ok blocks /\ existsb is_tool_use blocks = true) ->
  availableTools (this st) <> [] ->
  fst (processQuery h fuel query st) = OutOfFuel
  /\ model_calls (log (snd (processQuery h fuel query st))) = model_calls (log st) + S fuel.
Proof.
  intros Hmodel Htools.
  assert (Hloop : forall fuel response v st,
             existsb is_tool_use response = true ->
             fst (whileLoop h fuel response v st) = OutOfFuel
             /\ model_calls (log (snd (whileLoop h fuel response v st)))
                = model_calls (log st) + fuel).
  { clear fuel st Htools. intros fuel.
    induction fuel as [| fuel IH]; intros response v st Hu.
    - simpl. split; [reflexivity | lia].
    - rewrite whileLoop_S.
      destruct (turn_with_tool_use response v st Hu)
        as (pre & id & tn & inp & post & r & n & _ & _ & Hturn).
      rewrite Hturn. simpl negb. cbv iota. rewrite anthropic_messages_create_eq.
      destruct (Hmodel (log st ++ map (request_of tn inp) (firstn n (servers (this st))))%list
                  (create_params (availableTools (this st))
                     (messages v ++ tool_messages response id r)))
        as (blocks & Hb & Hub).
      simpl. rewrite Hb. simpl.
      match goal with
      | |- context [whileLoop h fuel blocks ?w ?s] =>
          destruct (IH blocks w s Hub) as [Ho Hc]
      end.
      split; [exact Ho |]. rewrite Hc. simpl.
      rewrite model_calls_snoc, model_calls_app, model_calls_requests. lia. }
  unfold processQuery, bind, get_this.
  destruct (availableTools (this st)) as [| t ts] eqn:Ht; [congruence |].
  rewrite anthropic_messages_create_eq.
  destruct (Hmodel (log st) (create_params (availableTools (this st)) [user_query query]))
    as (blocks & Hb & Hub).
  rewrite Hb. simpl.
  match goal with
  | |- context [whileLoop h fuel blocks ?w ?s] => destruct (Hloop fuel blocks w s Hub) as [Ho Hc]
  end.
  split; [exact Ho |]. rewrite Hc. simpl. rewrite model_calls_snoc. lia.
Qed.

Lemma processQuery_unbounded_witness :
  fst (@processQuery sampleP (@looping_host sampleP) 25 "Give me random numbers" sample_state)
  = OutOfFuel.
Proof.
  refine (proj1 (processQuery_unbounded (P := sampleP) (@looping_host sampleP) 25
                   "Give me random numbers" sample_state _ _)).
  - intros l params. eexists. split; reflexivity.
  - simpl. discriminate.
Defined.




(** The first turn of a query whose first response asks for a tool. *)
Lemma processQuery_after_first_tool {P : Platform} (h : Host) (fuel : nat) (query : string)
  (st st1 : State) (pre : list Anthropic.ContentBlock) (id toolName : string) (input : json)
  (post : list Anthropic.ContentBlock) (toolResult : string) :
  availableTools (this st) <> [] ->
  existsb is_tool_use pre = false ->
  let response := (pre ++ Anthropic.ToolUseBlock id toolName input :: post)%list in
  let call1 := create_params (availableTools (this st)) [user_query query] in
  messages_create h (log st) call1 = Ok response ->
  executeTool toolName input {| this := this st; log := log st ++ [MessagesCreate call1] |}
  = (Returned toolResult, st1) ->
  this st1 = this st
  /\ processQuery h (S fuel) query st
     = (response' <- anthropic_messages_create h
                       (user_query query :: tool_messages response id toolResult) ;;
        whileLoop h fuel response'
          {| steps := text_steps pre
                      ++ [tool_use_step toolName input; tool_result_step toolResult];
             messages := user_query query :: tool_messages response id toolResult |}) st1.
Proof.
  intros Htools Hpre response call1 Hmodel Hexec.
  assert (Hthis : this st1 = this st).
  { destruct (executeTool_returns toolName input
                {| this := this st; log := log st ++ [MessagesCreate call1] |})
      as (r & n & He).
    rewrite He in Hexec. injection Hexec as _ <-. reflexivity. }
  split; [exact Hthis |].
  unfold processQuery. unfold bind at 1. unfold get_this at 1.
  destruct (availableTools (this st)) as [| t ts] eqn:Ht; [congruence |].
  unfold bind at 1. rewrite anthropic_messages_create_eq. rewrite Ht.
  fold call1. rewrite Hmodel. simpl of_result. cbv iota.
  change (whileLoop h (S fuel) response ?v ?s)
    with (bind (forContent response response v)
               (fun r => let (usedTool, w) := r in
                         if negb usedTool then ret (steps w)
                         else response' <- anthropic_messages_create h (messages w) ;;
                              whileLoop h fuel response' w) s).
  unfold bind at 1. unfold response at 2.
  rewrite forContent_skip by exact Hpre.
  rewrite (forContent_tool_use toolName input response post id _ _ st1 toolResult Hexec).
  reflexivity.
Qed.

(** A query answered in two turns: the first response asks for a tool,
    the second holds text only.  The trace is the text Steps of the first
    response up to the tool-use block, the tool_use Step, the tool_result
    Step and the text Steps of the second response; the second call of the
    model carries the query, the whole first response and the tool result
    tagged with the identifier of the tool-use block. *)
Theorem processQuery_tool_then_text {P : Platform} (h : Host) (fuel : nat) (query : string)
  (st st1 : State) (pre : list Anthropic.ContentBlock) (id toolName : string) (input : json)
  (post : list Anthropic.ContentBlock) (toolResult : string) (texts : list string) :
  availableTools (this st) <> [] ->
  existsb is_tool_use pre = false ->
  let response := (pre ++ Anthropic.ToolUseBlock id toolName input :: post)%list in
  let call1 := create_params (availableTools (this st)) [user_query query] in
  let call2 := create_params (availableTools (this st))
                 (user_query query :: tool_messages response id toolResult) in
  messages_create h (log st) call1 = Ok response ->
  executeTool toolName input {| this := this st; log := log st ++ [MessagesCreate call1] |}
  = (Returned toolResult, st1) ->
  messages_create h (log st1) call2 = Ok (map Anthropic.TextBlock texts) ->
  processQuery h (S (S fuel)) query st
  = (Returned (text_steps pre
               ++ [tool_use_step toolName input; tool_result_step toolResult]
               ++ map text_step texts)%list,
     {| this := this st; log := log st1 ++ [MessagesCreate call2] |}).
Proof.
  intros Htools Hpre response call1 call2 Hm1 Hexec Hm2.
  destruct (processQuery_after_first_tool h (S fuel) query st st1 pre id toolName input post
              toolResult Htools Hpre Hm1 Hexec) as [Hthis Hq].
  rewrite Hq. unfold bind at 1. rewrite anthropic_messages_create_eq, Hthis.
  fold response. fold call2. rewrite Hm2. simpl of_result. cbv iota.
  rewrite whileLoop_S.
  rewrite turn_without_tool_use by apply existsb_tool_use_texts.
  simpl. rewrite text_steps_texts, <- app_assoc. reflexivity.
Qed.


Lemma executeTool_multiply_sample :
  @executeTool sampleP "multiply" a15_b32
    {| this := this sample_state;
       log := log sample_state
              ++ [MessagesCreate (create_params (availableTools (this sample_state))
                                                [user_query "What is 15 * 32?"])] |}
  = (Returned ("15 " ++ TIMES ++ " 32 = 480"), after_multiply).
Proof. reflexivity. Qed.

Lemma processQuery_tool_then_text_witness :
  fst (@processQuery sampleP (@multiply_host sampleP) 2 "What is 15 * 32?" sample_state)
  = Returned [ text_step "Let me calculate.";
               @tool_use_step sampleP "multiply" a15_b32;
               tool_result_step ("15 " ++ TIMES ++ " 32 = 480");
               text_step "15 * 32 = 480." ].
Proof.
  rewrite (processQuery_tool_then_text (P := sampleP) (@multiply_host sampleP) 0
             "What is 15 * 32?" sample_state after_multiply
             [Anthropic.TextBlock "Let me calculate."] "toolu_1" "multiply" a15_b32 []
             ("15 " ++ TIMES ++ " 32 = 480") ["15 * 32 = 480."]
             ltac:(simpl; discriminate) eq_refl eq_refl executeTool_multiply_sample eq_refl).
  reflexivity.
Defined.


(** ** The server action, continued *)

(** Configuration errors end [runQuery] before anything is started or
    called: without an API key, with an unreadable configuration and with
    a configuration that names no server, it throws with the log
    untouched. *)
Theorem runQuery_configuration_errors {P : Platform} (h : Host) (fuel : nat) (query : string)
  (st : State) :
  (ANTHROPIC_API_KEY h = None \/ ANTHROPIC_API_KEY h = Some EmptyString ->
   runQuery h fuel query st = (Thrown (Error "Anthropic API key is required."), st))
  /\ (forall k, ANTHROPIC_API_KEY h = Some k -> is_empty k = false ->
      (forall e, mcpConfig_json h = Fail e ->
                 runQuery h fuel query st
                 = (Thrown e, {| this := empty_client; log := log st |}))
      /\ (mcpConfig_json h = Ok [] ->
          runQuery h fuel query st
          = (Thrown (Error "No tools available. Please call connectToServers() first."),
             {| this := empty_client; log := log st |}))).
Proof.
  unfold runQuery, bind, new_MCPClient. split.
  - intros [Hk | Hk]; rewrite Hk; reflexivity.
  - intros k Hk Hne. rewrite Hk, Hne. unfold set_this, connectToServers, bind, readConfigJson.
    simpl. split.
    + intros e He. rewrite He. reflexivity.
    + intros He. rewrite He. reflexivity.
Qed.

Lemma runQuery_configuration_errors_witness :
  @runQuery sampleP no_server_host 3 "What is 15 * 32?" initial
  = (Thrown (Error "No tools available. Please call connectToServers() first."), initial).
Proof.
  exact (proj2 (proj2 (runQuery_configuration_errors (P := sampleP) no_server_host 3
                         "What is 15 * 32?" initial)
                  "sk-ant-test" eq_refl eq_refl) eq_refl).
Defined.

Lemma processQuery_keeps_this {P : Platform} (h : Host) (fuel : nat) (query : string)
  (st st' : State) (result : list Step.t) :
  processQuery h fuel query st = (Returned result, st') -> this st' = this st.
Proof.
  unfold processQuery, bind, get_this.
  destruct (availableTools (this st)); [discriminate |].
  rewrite anthropic_messages_create_eq.
  destruct (messages_create h _ _) as [response | e]; simpl; [| discriminate].
  intros Hloop. apply whileLoop_returned in Hloop. exact (proj1 Hloop).
Qed.

(** When [runQuery] returns, discovery and the query have gone through
    and, after the query, every connection registered by discovery has
    been sent its [Close]; the client is left without servers and tools. *)
Theorem runQuery_success {P : Platform} (h : Host) (fuel : nat) (query : string)
  (st st' : State) (result : list Step.t) :
  runQuery h fuel query st = (Returned result, st') ->
  exists st2 st3,
    (new_MCPClient h ;;; connectToServers h) st = (Returned tt, st2)
    /\ processQuery h fuel query st2 = (Returned result, st3)
    /\ st' = {| this := empty_client; log := log st3 ++ closes (servers (this st2)) |}.
Proof.
  unfold runQuery, bind.
  destruct (new_MCPClient h st) as [[[] | e1 |] s1] eqn:H1; try discriminate.
  destruct (connectToServers h s1) as [[[] | e2 |] s2] eqn:H2; try discriminate.
  destruct (processQuery h fuel query s2) as [[r | e3 |] s3] eqn:Hq; try discriminate.
  rewrite cleanup_effect. unfold ret. intros [= <- <-].
  exists s2, s3. split; [reflexivity |]. split; [exact Hq |].
  rewrite (processQuery_keeps_this h fuel query s2 s3 r Hq). reflexivity.
Qed.

Lemma runQuery_success_witness :
  exists st2 st3,
    (new_MCPClient (@text_only_host sampleP) ;;; connectToServers (@text_only_host sampleP))
      initial = (Returned tt, st2)
    /\ @processQuery sampleP (@text_only_host sampleP) 1 "hello" st2
       = (Returned [text_step "Hello."; text_step "How can I help?"], st3)
    /\ snd (@runQuery sampleP (@text_only_host sampleP) 1 "hello" initial)
       = {| this := empty_client; log := log st3 ++ closes (servers (this st2)) |}.
Proof.
  assert (H : fst (@runQuery sampleP (@text_only_host sampleP) 1 "hello" initial)
              = Returned [text_step "Hello."; text_step "How can I help?"])
    by (vm_compute; reflexivity).
  refine (runQuery_success (P := sampleP) (@text_only_host sampleP) 1 "hello" initial _ _ _).
  rewrite <- H. apply surjective_pairing.
Defined.



(** ** The page *)

(** [handleRun] lets no error of the server action through: a query of
    white space only is ignored, without any call and with the page as it
    was; otherwise the page ends up not loading and shows the Steps of the
    query or, when the server action threw, one text Step made of the
    error marker and the error. *)
Theorem handleRun_never_throws {P : Platform} (String_ : exn -> string) (h : Host)
  (fuel : nat) (ui : UI.state) (st : State) :
  (is_blank (UI.query ui) = true -> handleRun String_ h fuel ui st = (Returned ui, st))
  /\ (is_blank (UI.query ui) = false ->
      forall e st', runQuery h fuel (UI.query ui) st = (Thrown e, st') ->
        handleRun String_ h fuel ui st
        = (Returned {| UI.query := UI.query ui;
                       UI.steps := [text_step (CROSS ++ " Error: " ++ String_ e)];
                       UI.loading := false |}, st'))
  /\ (is_blank (UI.query ui) = false ->
      forall result st', runQuery h fuel (UI.query ui) st = (Returned result, st') ->
        handleRun String_ h fuel ui st
        = (Returned {| UI.query := UI.query ui; UI.steps := result; UI.loading := false |},
           st'))
  /\ (forall e st', handleRun String_ h fuel ui st <> (Thrown e, st')).
Proof.
  unfold handleRun. split; [| split; [| split]].
  - intros Hb. rewrite Hb. reflexivity.
  - intros Hb e st' Hr. rewrite Hb. unfold try_catch, bind. rewrite Hr. reflexivity.
  - intros Hb result st' Hr. rewrite Hb. unfold try_catch, bind. rewrite Hr. reflexivity.
  - intros e st'. destruct (is_blank (UI.query ui)); [discriminate |].
    unfold try_catch, bind.
    destruct (runQuery h fuel (UI.query ui) st) as [[r | x |] s]; discriminate.
Qed.

Lemma handleRun_never_throws_witness :
  is_blank (" " ++ LF ++ "  ") = true
  /\ @handleRun sampleP sample_String (@failing_model_host sampleP) 1
       {| UI.query := " " ++ LF ++ "  "; UI.steps := [text_step "old"]; UI.loading := false |}
       initial
     = (Returned {| UI.query := " " ++ LF ++ "  "; UI.steps := [text_step "old"];
                    UI.loading := false |}, initial)
  /\ fst (@handleRun sampleP sample_String (@failing_model_host sampleP) 1
            {| UI.query := "What is 15 * 32?"; UI.steps := []; UI.loading := false |} initial)
     = Returned {| UI.query := "What is 15 * 32?";
                   UI.steps := [text_step (CROSS ++ " Error: Error: 529 overloaded")];
                   UI.loading := false |}.
Proof.
  split; [reflexivity |]. split.
  - exact (proj1 (handleRun_never_throws (P := sampleP) sample_String
                    (@failing_model_host sampleP) 1
                    {| UI.query := " " ++ LF ++ "  "; UI.steps := [text_step "old"];
                       UI.loading := false |} initial) eq_refl).
  - assert (H : fst (@runQuery sampleP (@failing_model_host sampleP) 1 "What is 15 * 32?"
                       initial) = Thrown (Error "529 overloaded")) by (vm_compute; reflexivity).
    rewrite (proj1 (proj2 (handleRun_never_throws (P := sampleP) sample_String
                             (@failing_model_host sampleP) 1
                             {| UI.query := "What is 15 * 32?"; UI.steps := [];
                                UI.loading := false |} initial))
               eq_refl (Error "529 overloaded")
               (snd (@runQuery sampleP (@failing_model_host sampleP) 1 "What is 15 * 32?"
                       initial))).
    + reflexivity.
    + simpl UI.query. rewrite <- H. apply surjective_pairing.
Defined.

(** ** The workspace socket *)

Lemma folder_response_message_id (data : json) (structure : option json) :
  prop_of (folder_response data structure) "message_id" = prop_of data "message_id".
Proof.
  unfold folder_response. simpl.
  destruct (prop_of data "message_id"); simpl; [reflexivity |].
  destruct (prop_of data "path"); simpl; destruct structure; reflexivity.
Qed.

Lemma folder_updated_message_id (data : json) :
  prop_of (folder_updated data) "message_id" = prop_of data "message_id".
Proof.
  unfold folder_updated. simpl. destruct (prop_of data "message_id"); reflexivity.
Qed.

(** The protocol of the message handler.  For a message of any shape, be
    it unparseable, at most one response is scheduled and the callback is
    called at most once; a response is scheduled only for a folder
    request or a folder update that is not a greeting, and it carries the
    message_id of the request; a greeting and a folder request are never
    passed to the callback. *)
Theorem onmessage_protocol {P : Platform} (structure : option json)
  (onMessage : option (json -> result unit)) (raw : string) (parsed : result json) :
  let effects := onmessage structure onMessage raw parsed in
  length (filter is_later effects) <= 1
  /\ length (filter is_forward effects) <= 1
  /\ (forall payload text type,
        In (Later payload text type) effects ->
        exists data,
          parsed = Ok data /\ is_greeting data = false
          /\ (is_folder_request data = true \/ is_folder_update data = true)
          /\ prop_of payload "message_id" = prop_of data "message_id")
  /\ (forall data,
        parsed = Ok data -> is_greeting data = true \/ is_folder_request data = true ->
        filter is_forward effects = []).
Proof.
  intros effects. subst effects.
  destruct parsed as [data | e].
  2:{ simpl. split; [lia |]. split; [lia |]. split.
      - intros ? ? ? [H | []]. discriminate H.
      - intros d Hd. discriminate Hd. }
  assert (Hnull : data = JNull \/ data <> JNull)
    by (destruct data; [left; reflexivity | right; discriminate ..]).
  destruct Hnull as [-> | Hnn].
  { simpl. split; [lia |]. split; [lia |]. split.
    - intros ? ? ? [H | []]. discriminate H.
    - intros d _ _. reflexivity. }
  assert (Heq : onmessage structure onMessage raw (Ok data)
    = let caught := Append ("Raw: " ++ raw) "received" in
      if is_greeting data then
        [Append ("Server: " ++ template (prop_of data "message")) "system"]
      else if is_folder_request data then
        [Append (MAGNIFIER ++ " MCP requesting folder: " ++ path_or_root (prop_of data "path"))
                "reply-request";
         Later (folder_response data structure) (CHECK ++ " Sent folder structure") "reply"]
      else if is_folder_update data then
        let announce :=
          Append (FOLDER ++ " MCP updating folder: " ++ path_or_root (prop_of data "path"))
                 "reply-request" in
        let respond :=
          Later (folder_updated data) (CHECK ++ " Folder updated successfully") "reply" in
        match prop_of data "folder_structure", onMessage with
        | Some folder_structure, Some callback =>
            if truthy folder_structure then
              let message := JObj [("type", JStr "update_structure");
                                   ("data", folder_structure)] in
              match callback message with
              | Ok _ => [announce; Forward message; respond]
              | Fail _ => [announce; Forward message; caught]
              end
            else [announce; respond]
        | _, _ => [announce; respond]
        end
      else
        let received :=
          match prop_of data "message" with
          | Some m => if truthy m then [Append ("Received: " ++ ToString m) "received"] else []
          | None => []
          end in
        match onMessage with
        | Some callback =>
            match callback data with
            | Ok _ => Forward data :: received
            | Fail _ => [Forward data; caught]
            end
        | None => received
        end).
  { destruct data; [congruence | reflexivity ..]. }
  rewrite Heq. clear Heq. cbv zeta.
  destruct (is_greeting data) eqn:Hg.
  { simpl. split; [lia |]. split; [lia |]. split.
    - intros ? ? ? [H | []]. discriminate H.
    - intros d _ _. reflexivity. }
  destruct (is_folder_request data) eqn:Hr.
  { simpl. split; [lia |]. split; [lia |]. split.
    - intros payload text type [H | [H | []]]; [discriminate H |].
      injection H as <- _ _. exists data.
      split; [reflexivity |]. split; [exact Hg |]. split; [left; exact Hr |].
      apply folder_response_message_id.
    - intros d _ _. reflexivity. }
  assert (Hfw : forall l : list effect,
             forall d, Ok data = Ok d ->
                       is_greeting d = true \/ is_folder_request d = true ->
                       filter is_forward l = []).
  { intros l d [= <-] [H | H]; congruence. }
  destruct (is_folder_update data) eqn:Hu.
  - assert (Hlater : forall payload text type,
               Later (folder_updated data) (CHECK ++ " Folder updated successfully") "reply"
               = Later payload text type ->
               exists d, Ok data = Ok d /\ is_greeting d = false
                         /\ (is_folder_request d = true \/ is_folder_update d = true)
                         /\ prop_of payload "message_id" = prop_of d "message_id").
    { intros payload text type H. injection H as <- _ _. exists data.
      split; [reflexivity |]. split; [exact Hg |]. split; [right; exact Hu |].
      apply folder_updated_message_id. }
    destruct (prop_of data "folder_structure") as [fs |], onMessage as [callback |];
      try destruct (truthy fs); try destruct (callback _);
      (split; [simpl; lia |]; split; [simpl; lia |]; split; [| apply Hfw]);
      intros payload text type Hin; simpl in Hin;
      repeat match goal with
             | H : _ \/ _ |- _ => destruct H as [H | H]
             | H : False |- _ => destruct H
             end;
      try discriminate; eapply Hlater; eassumption.
  - destruct (prop_of data "message") as [m |], onMessage as [callback |];
      try destruct (truthy m); try destruct (callback _);
      (split; [simpl; lia |]; split; [simpl; lia |]; split; [| apply Hfw]);
      intros payload text type Hin; simpl in Hin;
      repeat match goal with
             | H : _ \/ _ |- _ => destruct H as [H | H]
             | H : False |- _ => destruct H
             end;
      discriminate.
Qed.

Lemma onmessage_protocol_witness :
  exists data,
    Ok folder_request_42 = Ok data /\ is_greeting data = false
    /\ (is_folder_request data = true \/ is_folder_update data = true)
    /\ prop_of (folder_response folder_request_42 None) "message_id"
       = prop_of data "message_id".
Proof.
  exact (proj1 (proj2 (proj2 (onmessage_protocol (P := sampleP) None None "{...}"
                                (Ok folder_request_42))))
           (folder_response folder_request_42 None) (CHECK ++ " Sent folder structure") "reply"
           (or_intror (or_introl eq_refl))).
Defined.

(** A folder update whose structure makes the callback throw is not
    answered: the handler announces the update, calls the callback, logs
    the raw message and schedules no response. *)
Theorem onmessage_update_callback_throws {P : Platform} (structure : option json)
  (callback : json -> result unit) (raw : string) (data folder_structure : json) (e : exn) :
  data <> JNull ->
  is_greeting data = false ->
  is_folder_request data = false ->
  is_folder_update data = true ->
  prop_of data "folder_structure" = Some folder_structure ->
  truthy folder_structure = true ->
  callback (JObj [("type", JStr "update_structure"); ("data", folder_structure)]) = Fail e ->
  onmessage structure (Some callback) raw (Ok data)
  = [ Append (FOLDER ++ " MCP updating folder: " ++ path_or_root (prop_of data "path"))
             "reply-request";
      Forward (JObj [("type", JStr "update_structure"); ("data", folder_structure)]);
      Append ("Raw: " ++ raw) "received" ]
  /\ filter is_later (onmessage structure (Some callback) raw (Ok data)) = [].
Proof.
  intros Hnn Hg Hr Hu Hfs Ht Hcb.
  assert (Heq : onmessage structure (Some callback) raw (Ok data)
                = [ Append (FOLDER ++ " MCP updating folder: "
                              ++ path_or_root (prop_of data "path")) "reply-request";
                    Forward (JObj [("type", JStr "update_structure");
                                   ("data", folder_structure)]);
                    Append ("Raw: " ++ raw) "received" ]).
  { unfold onmessage. destruct data; [congruence | ..];
      rewrite Hg, Hr, Hu, Hfs, Ht, Hcb; reflexivity. }
  split; [exact Heq |]. rewrite Heq. reflexivity.
Qed.

Lemma onmessage_update_callback_throws_witness :
  filter is_later
    (@onmessage sampleP None (Some (fun _ => Fail (Error "setTree failed"))) "{...}"
       (Ok folder_update_43))
  = [].
Proof.
  exact (proj2 (onmessage_update_callback_throws (P := sampleP) None
                  (fun _ => Fail (Error "setTree failed")) "{...}" folder_update_43
                  (JObj [("name", JStr "root"); ("type", JStr "folder")])
                  (Error "setTree failed")
                  ltac:(discriminate) eq_refl eq_refl eq_refl eq_refl eq_refl eq_refl)).
Defined.
